(** * Hotel audit management backend: query library, query builder, AI endpoints

    A shallow embedding of
      - [python_backend/database_queries.py]  ([DatabaseQueries], [QueryBuilder]),
      - [python_backend/app/api/endpoints/ai.py]  ([analyze_photo], [generate_report]),
    and the properties of these operations.

    Modelling conventions.
      - Python [int] is [Z]; [Optional[T]] and nullable columns are [option T].
      - [datetime] is a count of microseconds since the epoch and a date is a
        count of days, both unbounded [Z]; [datetime.utcnow()] is the explicit
        argument [now] of every operation that reads the clock.
      - A table is the list of its rows in storage order; a SQLAlchemy session
        is the record [Db] of the four tables, threaded through the mutating
        operations, which return the Python return value and the new database.
      - An operation whose database call can be refused returns the outcome
        of the call, a value or the exception raised, and the database as
        stored afterwards.
      - SQL comparisons on nullable columns are three-valued ([option bool]);
        a row passes [filter] only when the condition is [Some true].
      - [ORDER BY] is a stable merge sort on the ordering key. *)

From Stdlib Require Import ZArith.
From stdpp Require Import base decidable option list gmap strings sorting.
From stdpp Require Import pretty.

Local Open Scope Z_scope.

(** ** Python values *)

(** Scalar JSON values held in [Dict] payloads; the operations below only
    store such payloads and test them for emptiness. *)
Inductive pyval : Type :=
  | PyNone
  | PyBool (b : bool)
  | PyInt (n : Z)
  | PyStr (s : string).

#[global] Instance pyval_eq_dec : EqDecision pyval.
Proof. solve_decision. Defined.

Abbreviation Dict := (gmap string pyval).

(** Python truthiness, as used by [if x:]. *)
Module Truthy.
Definition of_str (x : option string) : bool :=
  match x with
  | Some s => bool_decide (s ≠ "")
  | None => false
  end.

Definition of_dict (x : option Dict) : bool :=
  match x with
  | Some d => bool_decide (size d ≠ 0%nat)
  | None => false
  end.

Definition of_list {A} (x : option (list A)) : bool :=
  match x with
  | Some (_ :: _) => true
  | Some [] => false
  | None => false
  end.

(** [datetime] objects define neither [__bool__] nor [__len__]. *)
Definition of_datetime (x : option Z) : bool :=
  match x with
  | Some _ => true
  | None => false
  end.
End Truthy.

(** ** Time *)

Module Datetime.
Definition microseconds_per_day : Z := 86400000000.

(** [timedelta(days=n)]. *)
Definition timedelta_days (n : Z) : Z := n * microseconds_per_day.

(** [dt.date()] and SQL [date(ts)]: the day a timestamp falls in. *)
Definition date (ts : Z) : Z := ts `div` microseconds_per_day.

(** A date used where a timestamp is expected denotes its midnight. *)
Definition midnight (d : Z) : Z := d * microseconds_per_day.
End Datetime.

(** ** Models *)

(** [User] rows are attribute dictionaries, because [update_user] assigns
    attributes by name with [setattr]. *)
Abbreviation User := (gmap string pyval).

Definition user_columns : list string :=
  ["id"; "username"; "password"; "role"; "name"; "email"; "created_at"].

Module Property.
Record t : Type := mk {
  id : Z;
  name : string;
  location : string;
  region : string;
  image : option string;
  status : option string;
  last_audit_score : option Z;
  next_audit_date : option Z;
  created_at : Z
}.

Definition set_status (v : option string) (p : t) : t :=
  let '(mk a b c d e _ g h i) := p in mk a b c d e v g h i.
Definition set_last_audit_score (v : option Z) (p : t) : t :=
  let '(mk a b c d e f _ h i) := p in mk a b c d e f v h i.
Definition set_next_audit_date (v : option Z) (p : t) : t :=
  let '(mk a b c d e f g _ i) := p in mk a b c d e f g v i.

#[global] Instance property_eq_dec : EqDecision t.
Proof. solve_decision. Defined.
End Property.

Module Audit.
Record t : Type := mk {
  id : Z;
  property_id : Z;
  auditor_id : option Z;
  reviewer_id : option Z;
  status : string;
  overall_score : option Z;
  cleanliness_score : option Z;
  branding_score : option Z;
  operational_score : option Z;
  compliance_zone : option string;
  findings : option Dict;
  action_plan : option Dict;
  ai_report : option Dict;
  ai_insights : option Dict;
  submitted_at : option Z;
  reviewed_at : option Z;
  created_at : Z
}.

Definition set_reviewer_id (v : option Z) (x : t) : t :=
  let '(mk a b c _ e f g h i j k l m n o p q) := x in
  mk a b c v e f g h i j k l m n o p q.
Definition set_status (v : string) (x : t) : t :=
  let '(mk a b c d _ f g h i j k l m n o p q) := x in
  mk a b c d v f g h i j k l m n o p q.
Definition set_overall_score (v : option Z) (x : t) : t :=
  let '(mk a b c d e _ g h i j k l m n o p q) := x in
  mk a b c d e v g h i j k l m n o p q.
Definition set_cleanliness_score (v : option Z) (x : t) : t :=
  let '(mk a b c d e f _ h i j k l m n o p q) := x in
  mk a b c d e f v h i j k l m n o p q.
Definition set_branding_score (v : option Z) (x : t) : t :=
  let '(mk a b c d e f g _ i j k l m n o p q) := x in
  mk a b c d e f g v i j k l m n o p q.
Definition set_operational_score (v : option Z) (x : t) : t :=
  let '(mk a b c d e f g h _ j k l m n o p q) := x in
  mk a b c d e f g h v j k l m n o p q.
Definition set_compliance_zone (v : option string) (x : t) : t :=
  let '(mk a b c d e f g h i _ k l m n o p q) := x in
  mk a b c d e f g h i v k l m n o p q.
Definition set_findings (v : option Dict) (x : t) : t :=
  let '(mk a b c d e f g h i j _ l m n o p q) := x in
  mk a b c d e f g h i j v l m n o p q.
Definition set_action_plan (v : option Dict) (x : t) : t :=
  let '(mk a b c d e f g h i j k _ m n o p q) := x in
  mk a b c d e f g h i j k v m n o p q.
Definition set_ai_report (v : option Dict) (x : t) : t :=
  let '(mk a b c d e f g h i j k l _ n o p q) := x in
  mk a b c d e f g h i j k l v n o p q.
Definition set_ai_insights (v : option Dict) (x : t) : t :=
  let '(mk a b c d e f g h i j k l m _ o p q) := x in
  mk a b c d e f g h i j k l m v o p q.
Definition set_submitted_at (v : option Z) (x : t) : t :=
  let '(mk a b c d e f g h i j k l m n _ p q) := x in
  mk a b c d e f g h i j k l m n v p q.
Definition set_reviewed_at (v : option Z) (x : t) : t :=
  let '(mk a b c d e f g h i j k l m n o _ q) := x in
  mk a b c d e f g h i j k l m n o v q.

#[global] Instance audit_eq_dec : EqDecision t.
Proof. solve_decision. Defined.
End Audit.

(** The item attributes are those read or written by the two source files
    ([category]/[item] in the query library, [section]/[item_name] in the
    report endpoint). *)
Module AuditItem.
Record t : Type := mk {
  id : Z;
  audit_id : Z;
  section : string;
  item_name : string;
  category : string;
  item : string;
  score : option Z;
  comments : option string;
  ai_analysis : option Dict;
  ai_suggested_score : option Z;
  created_at : Z
}.

Definition set_score (v : option Z) (x : t) : t :=
  let '(mk a b c d e f _ h i j k) := x in mk a b c d e f v h i j k.
Definition set_comments (v : option string) (x : t) : t :=
  let '(mk a b c d e f g _ i j k) := x in mk a b c d e f g v i j k.
Definition set_ai_analysis (v : option Dict) (x : t) : t :=
  let '(mk a b c d e f g h _ j k) := x in mk a b c d e f g h v j k.
Definition set_ai_suggested_score (v : option Z) (x : t) : t :=
  let '(mk a b c d e f g h i _ k) := x in mk a b c d e f g h i v k.

#[global] Instance audit_item_eq_dec : EqDecision t.
Proof. solve_decision. Defined.
End AuditItem.

(** ** The database session *)

Record Db : Type := mkDb {
  users : list User;
  properties : list Property.t;
  audits : list Audit.t;
  audit_items : list AuditItem.t
}.

Definition with_users (v : list User) (db : Db) : Db :=
  mkDb v db.(properties) db.(audits) db.(audit_items).
Definition with_properties (v : list Property.t) (db : Db) : Db :=
  mkDb db.(users) v db.(audits) db.(audit_items).
Definition with_audits (v : list Audit.t) (db : Db) : Db :=
  mkDb db.(users) db.(properties) v db.(audit_items).
Definition with_audit_items (v : list AuditItem.t) (db : Db) : Db :=
  mkDb db.(users) db.(properties) db.(audits) v.

(** ** Exceptions *)

Module Exn.
(** The exceptions an endpoint body can raise: FastAPI's [HTTPException]
    and any other subclass of [Exception], carried with its [str(e)]. *)
Inductive exception : Type :=
  | HTTPException (status_code : Z) (detail : string)
  | OtherException (message : string).

Inductive result (A : Type) : Type :=
  | Return (a : A)
  | Raise (e : exception).
Arguments Return {A} a.
Arguments Raise {A} e.

Definition bind {A B} (m : result A) (k : A → result B) : result B :=
  match m with
  | Return a => k a
  | Raise e => Raise e
  end.

(** [try: body except Exception as e: handler(e)] *)
Definition try_except {A} (body : result A) (handler : exception → result A)
    : result A :=
  match body with
  | Return a => Return a
  | Raise e => handler e
  end.

Definition status_of {A} (r : result A) : option Z :=
  match r with
  | Raise (HTTPException status_code _) => Some status_code
  | _ => None
  end.
End Exn.

Notation "x ←! m ; k" := (Exn.bind m (λ x, k))
  (at level 20, m at level 100, k at level 200, only parsing, right associativity).

(** ** SQL and ORM primitives *)

Module Sql.
(** Three-valued comparisons on nullable operands. *)
Definition eq {A} `{EqDecision A} (x : option A) (y : A) : option bool :=
  (λ v, bool_decide (v = y)) <$> x.
Definition lt (x : option Z) (y : Z) : option bool :=
  (λ v, bool_decide (v < y)) <$> x.
Definition gt (x : option Z) (y : Z) : option bool :=
  (λ v, bool_decide (y < v)) <$> x.
Definition le (x : option Z) (y : Z) : option bool :=
  (λ v, bool_decide (v ≤ y)) <$> x.
Definition ge (x : option Z) (y : Z) : option bool :=
  (λ v, bool_decide (y ≤ v)) <$> x.
Definition in_ {A} `{EqDecision A} (x : option A) (ys : list A) : option bool :=
  (λ v, bool_decide (v ∈ ys)) <$> x.
Definition is_null {A} (x : option A) : option bool :=
  Some (match x with None => true | Some _ => false end).

Definition and_ (p q : option bool) : option bool :=
  match p, q with
  | Some false, _ | _, Some false => Some false
  | Some true, Some true => Some true
  | _, _ => None
  end.
Definition or_ (p q : option bool) : option bool :=
  match p, q with
  | Some true, _ | _, Some true => Some true
  | Some false, Some false => Some false
  | _, _ => None
  end.

(** A [WHERE] condition keeps a row only when it is true. *)
Definition holds (c : option bool) : Prop := c = Some true.
#[global] Instance holds_dec c : Decision (holds c).
Proof. unfold holds. solve_decision. Defined.

(** [query.filter(cond)] *)
Definition where_ {A} (cond : A → option bool) (rows : list A) : list A :=
  filter (λ r, holds (cond r)) rows.

(** [query.first()] *)
Definition first {A} (rows : list A) : option A := head rows.

(** [query(M).filter(M.id == k).first()] *)
Definition by_pk {A} (pk : A → Z) (k : Z) (rows : list A) : option A :=
  first (where_ (λ r, eq (Some (pk r)) k) rows).

(** [CASE WHEN c1 THEN v1 ... ELSE e END]: the first true branch wins. *)
Fixpoint case {A} (whens : list (option bool * A)) (else_ : A) : A :=
  match whens with
  | [] => else_
  | (Some true, v) :: _ => v
  | _ :: rest => case rest else_
  end.

(** The [UPDATE ... WHERE pk = k] flushed by [commit] for an object that
    was loaded under primary key [k] and then modified. *)
Definition flush {A K} `{EqDecision K} (pk : A → K) (k : K) (obj : A)
    (rows : list A) : list A :=
  (λ r, if decide (pk r = k) then obj else r) <$> rows.

(** [col.isnot(None)] *)
Definition is_not_null {A} (x : option A) : option bool :=
  Some (match x with None => false | Some _ => true end).

(** [query.filter(cond).update(values)]: rewrites the selected rows in
    place and returns how many there were. *)
Definition update {A} (cond : A → option bool) (set : A → A) (rows : list A)
    : Z * list A :=
  (Z.of_nat (length (where_ cond rows)),
   (λ r, if decide (holds (cond r)) then set r else r) <$> rows).
End Sql.

(** [ORDER BY] relations on nullable keys. *)
Module Order.
(** [col.asc().nullsfirst()] *)
Definition asc_nullsfirst (x y : option Z) : Prop :=
  match x, y with
  | None, _ => True
  | Some _, None => False
  | Some a, Some b => a ≤ b
  end.

(** [desc(col)]; a null key sorts before every value, the default of the
    PostgreSQL dialect these queries are written for. *)
Definition desc_nullsfirst (x y : option Z) : Prop :=
  match x, y with
  | None, _ => True
  | Some _, None => False
  | Some a, Some b => b ≤ a
  end.

(** [desc(col)] on a key that is never null. *)
Definition desc (x y : Z) : Prop := y ≤ x.

(** Two keys, the second breaking ties of the first. *)
Definition lex {K1 K2} (R1 : relation K1) (R2 : relation K2) : relation (K1 * K2) :=
  λ x y, (R1 x.1 y.1 ∧ ¬ R1 y.1 x.1) ∨ (R1 x.1 y.1 ∧ R1 y.1 x.1 ∧ R2 x.2 y.2).

(** [query.order_by(key)] *)
Definition by_ {A K} (key : A → K) (R : relation K) : relation A :=
  λ a b, R (key a) (key b).

#[global] Typeclasses Opaque by_ lex.

#[global] Instance asc_nullsfirst_dec x y : Decision (asc_nullsfirst x y).
Proof. destruct x, y; simpl; apply _. Defined.
#[global] Instance desc_nullsfirst_dec x y : Decision (desc_nullsfirst x y).
Proof. destruct x, y; simpl; apply _. Defined.
#[global] Instance desc_dec x y : Decision (desc x y).
Proof. unfold desc. apply _. Defined.
#[global] Instance lex_dec {K1 K2} (R1 : relation K1) (R2 : relation K2)
  `{∀ x y, Decision (R1 x y)} `{∀ x y, Decision (R2 x y)} x y :
  Decision (lex R1 R2 x y).
Proof. unfold lex. apply _. Defined.

#[global] Instance by_dec {A K} (key : A → K) (R : relation K)
  `{∀ x y, Decision (R x y)} a b : Decision (by_ key R a b).
Proof. unfold by_. apply _. Defined.

Definition order_by {A K} (key : A → K) (R : relation K)
    `{∀ x y, Decision (R x y)} (rows : list A) : list A :=
  merge_sort (by_ key R) rows.

(** [col] or [col.asc()] on a key that is never null. *)
Definition asc (x y : Z) : Prop := x ≤ y.
#[global] Instance asc_dec x y : Decision (asc x y).
Proof. unfold asc. apply _. Defined.

(** [col] ascending on a nullable key; a null key sorts after every value,
    the default of the PostgreSQL dialect. *)
Definition asc_nullslast (x y : option Z) : Prop :=
  match x, y with
  | _, None => True
  | None, Some _ => False
  | Some a, Some b => a ≤ b
  end.
#[global] Instance asc_nullslast_dec x y : Decision (asc_nullslast x y).
Proof. destruct x, y; simpl; apply _. Defined.
End Order.

Module Join.
(** [query.join(B, on)] *)
Definition inner {A B} (on : A → B → option bool)
    (left : list A) (right : list B) : list (A * B) :=
  l ← left; (λ r, (l, r)) <$> Sql.where_ (on l) right.

(** [query.outerjoin(B, on)]: a left row without a partner is kept once,
    with nulls on the right. *)
Definition outer {A B} (on : A → B → option bool)
    (left : list A) (right : list B) : list (A * option B) :=
  l ← left;
  match Sql.where_ (on l) right with
  | [] => [(l, None)]
  | rs => (λ r, (l, Some r)) <$> rs
  end.
End Join.

(** ** [class DatabaseQueries] *)

Module DatabaseQueries.

(** *** User management *)

(** [update_user(user_id, **kwargs)]; [kwargs] in call order.  The object
    returned keeps every assigned attribute, the row written keeps the
    mapped columns. *)
Definition update_user (user_id : Z) (kwargs : list (string * pyval))
    (db : Db) : option User * Db :=
  let user :=
    Sql.first (Sql.where_ (λ u : User, Sql.eq (u !! "id") (PyInt user_id)) db.(users)) in
  match user with
  | Some user =>
      let user := foldl (λ (u : User) kv, <[kv.1 := kv.2]> u) user kwargs in
      let row : User := filter (λ kv, kv.1 ∈ user_columns) user in
      (Some user,
       with_users
         (Sql.flush (λ u : User, u !! "id") (Some (PyInt user_id)) row db.(users)) db)
  | None => (None, db)
  end.

(** *** Property management *)

Definition needs_audit (today : Z) (p : Property.t) : option bool :=
  Sql.or_ (Sql.is_null p.(Property.next_audit_date))
          (Sql.lt p.(Property.next_audit_date) (Datetime.midnight today)).

Definition get_properties_needing_audit (now : Z) (db : Db) : list Property.t :=
  let today := Datetime.date now in
  Order.order_by Property.next_audit_date Order.asc_nullsfirst
    (Sql.where_ (needs_audit today) db.(properties)).

Definition update_property_status (now : Z) (property_id score : Z)
    (db : Db) : option Property.t * Db :=
  let property := Sql.by_pk Property.id property_id db.(properties) in
  match property with
  | Some property =>
      let property :=
        if decide (80 ≤ score) then Property.set_status (Some "green") property
        else if decide (60 ≤ score) then Property.set_status (Some "amber") property
        else Property.set_status (Some "red") property in
      let property := Property.set_last_audit_score (Some score) property in
      let property :=
        Property.set_next_audit_date (Some (now + Datetime.timedelta_days 90)) property in
      (Some property,
       with_properties (Sql.flush Property.id property_id property db.(properties)) db)
  | None => (None, db)
  end.

(** *** Audit management *)

Definition update_audit_scores (now : Z) (audit_id overall_score : Z)
    (cleanliness_score branding_score operational_score : option Z)
    (compliance_zone : option string) (findings action_plan : option Dict)
    (db : Db) : option Audit.t * Db :=
  match Sql.by_pk Audit.id audit_id db.(audits) with
  | Some audit =>
      let audit := Audit.set_overall_score (Some overall_score) audit in
      let audit :=
        if decide (cleanliness_score ≠ None)
        then Audit.set_cleanliness_score cleanliness_score audit else audit in
      let audit :=
        if decide (branding_score ≠ None)
        then Audit.set_branding_score branding_score audit else audit in
      let audit :=
        if decide (operational_score ≠ None)
        then Audit.set_operational_score operational_score audit else audit in
      let audit :=
        if Truthy.of_str compliance_zone
        then Audit.set_compliance_zone compliance_zone audit else audit in
      let audit :=
        if Truthy.of_dict findings
        then Audit.set_findings findings audit else audit in
      let audit :=
        if Truthy.of_dict action_plan
        then Audit.set_action_plan action_plan audit else audit in
      let audit := Audit.set_status "submitted" audit in
      let audit := Audit.set_submitted_at (Some now) audit in
      (Some audit, with_audits (Sql.flush Audit.id audit_id audit db.(audits)) db)
  | None => (None, db)
  end.

(** The reference from [Audit.reviewer_id] to [User.id] that the schema
    declares (the spec: a user is "referenced by Audit.auditor_id,
    Audit.reviewer_id") and the storage engine enforces when the row is
    written at [commit]. *)
Definition reviewer_exists (reviewer_id : Z) (db : Db) : Prop :=
  Exists (λ u : User, u !! "id" = Some (PyInt reviewer_id)) db.(users).
#[global] Instance reviewer_exists_dec reviewer_id db :
  Decision (reviewer_exists reviewer_id db).
Proof. unfold reviewer_exists. apply _. Defined.

(** The [IntegrityError] with which [commit] fails when the storage engine
    refuses a row; the engine's message text is not modelled. *)
Definition IntegrityError : Exn.exception := Exn.OtherException "IntegrityError".

(** [assign_reviewer] has no [try]: the error of a refused [commit]
    propagates to the caller, and the refused row is not stored. *)
Definition assign_reviewer (now : Z) (audit_id reviewer_id : Z)
    (db : Db) : Exn.result (option Audit.t) * Db :=
  match Sql.by_pk Audit.id audit_id db.(audits) with
  | Some audit =>
      let audit := Audit.set_reviewer_id (Some reviewer_id) audit in
      let audit := Audit.set_status "reviewed" audit in
      let audit := Audit.set_reviewed_at (Some now) audit in
      (* self.db.commit() *)
      if decide (reviewer_exists reviewer_id db)
      then (Exn.Return (Some audit),
            with_audits (Sql.flush Audit.id audit_id audit db.(audits)) db)
      else (Exn.Raise IntegrityError, db)
  | None => (Exn.Return None, db)
  end.

(** *** Audit items *)

Definition update_audit_item_with_ai (item_id : Z) (ai_analysis : Dict)
    (ai_suggested_score : Z) (score : option Z) (comments : option string)
    (db : Db) : option AuditItem.t * Db :=
  let item := Sql.by_pk AuditItem.id item_id db.(audit_items) in
  match item with
  | Some item =>
      let item := AuditItem.set_ai_analysis (Some ai_analysis) item in
      let item := AuditItem.set_ai_suggested_score (Some ai_suggested_score) item in
      let item :=
        if decide (score ≠ None) then AuditItem.set_score score item else item in
      let item :=
        if Truthy.of_str comments then AuditItem.set_comments comments item else item in
      (Some item,
       with_audit_items (Sql.flush AuditItem.id item_id item db.(audit_items)) db)
  | None => (None, db)
  end.

(** *** AI integration *)

Definition update_audit_with_ai_report (audit_id : Z) (ai_report ai_insights : Dict)
    (db : Db) : option Audit.t * Db :=
  match Sql.by_pk Audit.id audit_id db.(audits) with
  | Some audit =>
      let audit := Audit.set_ai_report (Some ai_report) audit in
      let audit := Audit.set_ai_insights (Some ai_insights) audit in
      (Some audit, with_audits (Sql.flush Audit.id audit_id audit db.(audits)) db)
  | None => (None, db)
  end.

(** *** Risk assessment *)

(** The subquery [latest_audit_subq]: one row [(property_id, max(Audit.id))]
    per property that has audits. *)
Definition latest_audit_subq (db : Db) : list (Z * Z) :=
  let group (pid : Z) :=
    Audit.id <$> filter (λ a, a.(Audit.property_id) = pid) db.(audits) in
  omap (λ pid,
          match group pid with
          | [] => None
          | x :: xs => Some (pid, foldr Z.max x xs)
          end)
       (remove_dups (Audit.property_id <$> db.(audits))).

(** [func.current_date() - func.date(Audit.created_at)], in days. *)
Definition days_since (now : Z) (created_at : option Z) : option Z :=
  (λ ts, Datetime.date now - Datetime.date ts) <$> created_at.

(** The [case(...)] expression labelled [risk_level]. *)
Definition risk_level (compliance_zone : option string)
    (days_since_audit : option Z) : string :=
  Sql.case
    [ (Sql.eq compliance_zone "red", "HIGH");
      (Sql.and_ (Sql.eq compliance_zone "amber") (Sql.gt days_since_audit 90), "HIGH");
      (Sql.eq compliance_zone "amber", "MEDIUM");
      (Sql.gt days_since_audit 180, "MEDIUM") ]
    "LOW".

(** The [case(...)] expression of the [order_by]. *)
Definition zone_rank (compliance_zone : option string) : Z :=
  Sql.case
    [ (Sql.eq compliance_zone "red", 1);
      (Sql.eq compliance_zone "amber", 2) ]
    3.

Module RiskRow.
Record t : Type := mk {
  name : string;
  location : string;
  overall_score : option Z;
  compliance_zone : option string;
  days_since_audit : option Z;
  risk_level : string
}.
End RiskRow.

Definition risk_row (now : Z)
    (joined : Property.t * option (Z * Z) * option Audit.t) : RiskRow.t :=
  let '(property, _, audit) := joined in
  let compliance_zone := audit ≫= Audit.compliance_zone in
  let days_since_audit := days_since now (Audit.created_at <$> audit) in
  RiskRow.mk property.(Property.name) property.(Property.location)
    (audit ≫= Audit.overall_score) compliance_zone days_since_audit
    (risk_level compliance_zone days_since_audit).

Definition get_risk_assessment (now : Z) (db : Db) : list RiskRow.t :=
  let with_latest :=
    Join.outer (λ (p : Property.t) (s : Z * Z), Sql.eq (Some p.(Property.id)) s.1)
      db.(properties) (latest_audit_subq db) in
  let with_audit :=
    Join.outer (λ (l : Property.t * option (Z * Z)) (a : Audit.t),
                  Sql.eq (snd <$> l.2) a.(Audit.id))
      with_latest db.(audits) in
  Order.order_by
    (λ r, (zone_rank r.(RiskRow.compliance_zone), r.(RiskRow.days_since_audit)))
    (Order.lex Z.le Order.desc_nullsfirst)
    (risk_row now <$> with_audit).

(** *** Utility methods *)

Module CleanupResult.
Record t : Type := mk { deleted_items : Z; deleted_audits : Z }.
End CleanupResult.

(** The rows a [DELETE] removes from a table, and how many they are. *)
Definition delete {A} `{EqDecision A} (selected : list A) (rows : list A)
    : Z * list A :=
  (Z.of_nat (length (filter (λ r, r ∈ selected) rows)),
   filter (λ r, r ∉ selected) rows).

(** The [InvalidRequestError] of SQLAlchemy's [Query.delete()]. *)
Definition InvalidRequestError : Exn.exception :=
  Exn.OtherException
    "Can't call Query.update() or Query.delete() when join(), outerjoin(), select_from(), or from_self() has been called".

(** [query.delete(synchronize_session=False)]: SQLAlchemy validates the
    state of the query before it emits any SQL and raises when [join()] has
    been called on the query ([joined]); only a query it accepts is sent as
    a [DELETE]. *)
Definition query_delete {A} `{EqDecision A} (joined : bool)
    (selected : list A) (rows : list A) : Exn.result (Z * list A) :=
  if joined then Exn.Raise InvalidRequestError
  else Exn.Return (delete selected rows).

(** [query(AuditItem).join(Audit).filter(Audit.created_at < cutoff_date)],
    read as the join on the foreign key [AuditItem.audit_id]. *)
Definition old_audit_items_query (cutoff_date : Z) (db : Db) : list AuditItem.t :=
  fst <$>
    Sql.where_ (λ ia : AuditItem.t * Audit.t, Sql.lt (Some ia.2.(Audit.created_at)) cutoff_date)
      (Join.inner (λ (i : AuditItem.t) (a : Audit.t),
                     Sql.eq (Some i.(AuditItem.audit_id)) a.(Audit.id))
         db.(audit_items) db.(audits)).

(** [query(Audit).filter(Audit.created_at < cutoff_date)] *)
Definition old_audits_query (cutoff_date : Z) (db : Db) : list Audit.t :=
  Sql.where_ (λ a, Sql.lt (Some a.(Audit.created_at)) cutoff_date) db.(audits).

(** [self.db.query(AuditItem).join(Audit).filter(...).delete(...)]:
    [join()] has been called on the query. *)
Definition delete_old_audit_items (cutoff_date : Z) (db : Db)
    : Exn.result (Z * Db) :=
  Exn.bind
    (query_delete true (old_audit_items_query cutoff_date db) db.(audit_items))
    (λ '(n, rows), Exn.Return (n, with_audit_items rows db)).

(** [self.db.query(Audit).filter(...).delete(...)]: no [join()]. *)
Definition delete_old_audits (cutoff_date : Z) (db : Db)
    : Exn.result (Z * Db) :=
  Exn.bind
    (query_delete false (old_audits_query cutoff_date db) db.(audits))
    (λ '(n, rows), Exn.Return (n, with_audits rows db)).

(** [cleanup_old_data] has no [try]: an error of either [delete] propagates
    before [self.db.commit()], and what is stored stays as it was. *)
Definition cleanup_old_data (now : Z) (days : Z) (db : Db)
    : Exn.result CleanupResult.t * Db :=
  let cutoff_date := now - Datetime.timedelta_days days in
  match delete_old_audit_items cutoff_date db with
  | Exn.Raise e => (Exn.Raise e, db)
  | Exn.Return (old_audit_items, db') =>
      match delete_old_audits cutoff_date db' with
      | Exn.Raise e => (Exn.Raise e, db)
      | Exn.Return (old_audits, db'') =>
          (* self.db.commit() *)
          (Exn.Return (CleanupResult.mk old_audit_items old_audits), db'')
      end
  end.

(** *** Further reads *)

Definition get_user_by_username (username : string) (db : Db) : option User :=
  Sql.first
    (Sql.where_ (λ u : User, Sql.eq (u !! "username") (PyStr username)) db.(users)).

Definition get_properties_by_region (region : string) (db : Db) : list Property.t :=
  Order.order_by Property.last_audit_score Order.desc_nullsfirst
    (Sql.where_ (λ p, Sql.eq (Some p.(Property.region)) region) db.(properties)).

Definition get_all_audits_with_details (db : Db) : list Audit.t :=
  Order.order_by Audit.created_at Order.desc db.(audits).

Definition get_audits_by_status (status : string) (db : Db) : list Audit.t :=
  Order.order_by Audit.created_at Order.asc
    (Sql.where_ (λ a, Sql.eq (Some a.(Audit.status)) status) db.(audits)).

Definition get_audits_by_auditor (auditor_id : Z) (status_list : option (list string))
    (db : Db) : list Audit.t :=
  let query :=
    Sql.where_ (λ a, Sql.eq a.(Audit.auditor_id) auditor_id) db.(audits) in
  let query :=
    if Truthy.of_list status_list
    then Sql.where_ (λ a, Sql.in_ (Some a.(Audit.status)) (default [] status_list)) query
    else query in
  Order.order_by Audit.created_at Order.asc query.

Definition get_audits_with_ai_analysis (db : Db) : list Audit.t :=
  Order.order_by Audit.created_at Order.desc
    (Sql.where_ (λ a, Sql.is_not_null a.(Audit.ai_report)) db.(audits)).

(** *** Properties requiring attention *)

Module AttentionRow.
Record t : Type := mk {
  name : string;
  location : string;
  status : option string;
  overall_score : option Z;
  compliance_zone : option string;
  last_audit_date : Z;
  days_since_audit : Z
}.
End AttentionRow.

(** [Property] joined to its row of [latest_audit_subq] and to the audit
    with that id. *)
Definition latest_audit_join (db : Db) : list (Property.t * (Z * Z) * Audit.t) :=
  let with_latest :=
    Join.inner (λ (p : Property.t) (s : Z * Z), Sql.eq (Some p.(Property.id)) s.1)
      db.(properties) (latest_audit_subq db) in
  Join.inner (λ (l : Property.t * (Z * Z)) (a : Audit.t),
                Sql.eq (Some a.(Audit.id)) l.2.2)
    with_latest db.(audits).

Definition needs_attention (joined : Property.t * (Z * Z) * Audit.t) : option bool :=
  Sql.or_ (Sql.eq joined.2.(Audit.compliance_zone) "red")
          (Sql.lt joined.2.(Audit.overall_score) 60).

Definition attention_row (now : Z)
    (joined : Property.t * (Z * Z) * Audit.t) : AttentionRow.t :=
  let '(property, _, audit) := joined in
  AttentionRow.mk property.(Property.name) property.(Property.location)
    property.(Property.status) audit.(Audit.overall_score)
    audit.(Audit.compliance_zone) audit.(Audit.created_at)
    (Datetime.date now - Datetime.date audit.(Audit.created_at)).

Definition get_properties_requiring_attention (now : Z) (db : Db)
    : list AttentionRow.t :=
  Order.order_by
    (λ r, (r.(AttentionRow.overall_score), r.(AttentionRow.days_since_audit)))
    (Order.lex Order.asc_nullslast Order.desc)
    (attention_row now <$> Sql.where_ needs_attention (latest_audit_join db)).

(** *** Schedule sweep *)

(** [update_property_audit_schedules()]; [now] and [now'] are its two
    readings of the clock, for [today] and for [next_audit_date]. *)
Definition update_property_audit_schedules (now now' : Z) (db : Db) : Z * Db :=
  let today := Datetime.date now in
  let next_audit_date := now' + Datetime.timedelta_days 90 in
  let '(updated, rows) :=
    Sql.update
      (λ p, Sql.lt p.(Property.next_audit_date) (Datetime.midnight today))
      (Property.set_next_audit_date (Some next_audit_date))
      db.(properties) in
  (updated, with_properties rows db).
End DatabaseQueries.

(** ** [class QueryBuilder] *)

Module QueryBuilder.

Definition build_audit_filter_query
    (property_ids auditor_ids : option (list Z))
    (status_list : option (list string))
    (date_from date_to : option Z)
    (score_min score_max : option Z)
    (compliance_zones : option (list string))
    (db : Db) : list Audit.t :=
  let query := db.(audits) in
  let query :=
    if Truthy.of_list property_ids
    then Sql.where_ (λ a, Sql.in_ (Some a.(Audit.property_id)) (default [] property_ids)) query
    else query in
  let query :=
    if Truthy.of_list auditor_ids
    then Sql.where_ (λ a, Sql.in_ a.(Audit.auditor_id) (default [] auditor_ids)) query
    else query in
  let query :=
    if Truthy.of_list status_list
    then Sql.where_ (λ a, Sql.in_ (Some a.(Audit.status)) (default [] status_list)) query
    else query in
  let query :=
    if Truthy.of_datetime date_from
    then Sql.where_ (λ a, Sql.ge (Some a.(Audit.created_at)) (default 0 date_from)) query
    else query in
  let query :=
    if Truthy.of_datetime date_to
    then Sql.where_ (λ a, Sql.le (Some a.(Audit.created_at)) (default 0 date_to)) query
    else query in
  let query :=
    match score_min with
    | Some score_min => Sql.where_ (λ a, Sql.ge a.(Audit.overall_score) score_min) query
    | None => query
    end in
  let query :=
    match score_max with
    | Some score_max => Sql.where_ (λ a, Sql.le a.(Audit.overall_score) score_max) query
    | None => query
    end in
  let query :=
    if Truthy.of_list compliance_zones
    then Sql.where_ (λ a, Sql.in_ a.(Audit.compliance_zone) (default [] compliance_zones)) query
    else query in
  Order.order_by Audit.created_at Order.desc query.

End QueryBuilder.

(** ** [app/schemas/schemas.py]: the AI request and response schemas *)

Module Schemas.
Module PhotoAnalysisRequest.
Record t : Type := mk {
  image_base64 : string;
  context : string;
  audit_item_id : option Z
}.
End PhotoAnalysisRequest.

(** The [float] fields are only passed through; their type is a parameter. *)
Module PhotoAnalysisResponse.
Record t (float : Type) : Type := mk {
  compliance_status : string;
  confidence_score : float;
  observations : list string;
  suggestions : list string;
  ai_score : option float
}.
End PhotoAnalysisResponse.

Module ReportGenerationRequest.
Record t : Type := mk { audit_id : Z }.
End ReportGenerationRequest.

Module ReportGenerationResponse.
Record t : Type := mk {
  summary : string;
  key_findings : list string;
  recommendations : list string;
  compliance_overview : Dict;
  ai_insights : Dict
}.
End ReportGenerationResponse.

Module ScoreSuggestionRequest.
Record t : Type := mk {
  audit_item_id : Z;
  observations : string
}.
End ScoreSuggestionRequest.

Module ScoreSuggestionResponse.
Record t (float : Type) : Type := mk {
  suggested_score : float;
  confidence : float;
  reasoning : string;
  compliance_zone : string
}.
End ScoreSuggestionResponse.

Module Token.
Record t : Type := mk {
  access_token : string;
  token_type : string
}.
End Token.

Module LoginRequest.
Record t : Type := mk {
  username : string;
  password : string
}.
End LoginRequest.
End Schemas.

(** ** [app/api/endpoints/ai.py] *)

Module Ai.
Import Exn Schemas.

(** The dictionary [audit_data] built for the report prompt. *)
Module AuditData.
Module Item.
Record t : Type := mk {
  section : string;
  item : string;
  score : option Z;
  comments : option string
}.
End Item.

Record t : Type := mk {
  property_name : string;
  location : string;
  audit_date : string;
  audit_type : string;
  overall_score : option Z;
  compliance_zone : option string;
  audit_items : list Item.t
}.
End AuditData.

Section endpoints.
(** Values of the schemas' [float] fields, and the raw dictionaries the
    Gemini service returns, are opaque to the endpoints. *)
Context {float analysis report : Type}.

(** [str(e)] of an [HTTPException], defined by the web framework. *)
Variable str_http : Z → string → string.
(** [datetime.isoformat()] *)
Variable isoformat : Z → string.

Definition str (e : exception) : string :=
  match e with
  | HTTPException status_code detail => str_http status_code detail
  | OtherException message => message
  end.

(** [gemini_service.analyze_audit_photo] and
    [gemini_service.generate_audit_report], the external AI calls. *)
Variable analyze_audit_photo : string → string → option Z → result analysis.
Variable generate_audit_report : AuditData.t → result report.

(** The constructors [PhotoAnalysisResponse] and [ReportGenerationResponse]
    applied to the unpacked dictionary: schema validation, which raises
    on a dictionary that does not fit. *)
Variable PhotoAnalysisResponse_init :
  analysis → result (PhotoAnalysisResponse.t float).
Variable ReportGenerationResponse_init :
  report → result ReportGenerationResponse.t.

Definition analyze_photo (request : PhotoAnalysisRequest.t)
    : result (PhotoAnalysisResponse.t float) :=
  try_except
    (analysis ←! analyze_audit_photo
                   request.(PhotoAnalysisRequest.image_base64)
                   request.(PhotoAnalysisRequest.context)
                   request.(PhotoAnalysisRequest.audit_item_id);
     PhotoAnalysisResponse_init analysis)
    (λ e, Raise (HTTPException 500 ("Failed to analyze photo: " +:+ str e))).

(** [joinedload(Audit.property)] and [joinedload(Audit.audit_items)] *)
Definition audit_property (audit : Audit.t) (db : Db) : option Property.t :=
  Sql.by_pk Property.id audit.(Audit.property_id) db.(properties).
Definition audit_audit_items (audit : Audit.t) (db : Db) : list AuditItem.t :=
  Sql.where_ (λ i, Sql.eq (Some i.(AuditItem.audit_id)) audit.(Audit.id))
    db.(audit_items).

Definition generate_report (request : ReportGenerationRequest.t) (db : Db)
    : result ReportGenerationResponse.t :=
  try_except
    (let audit :=
       Sql.by_pk Audit.id request.(ReportGenerationRequest.audit_id) db.(audits) in
     match audit with
     | None => Raise (HTTPException 404 "Audit not found")
     | Some audit =>
         let property := audit_property audit db in
         let audit_data :=
           AuditData.mk
             (from_option Property.name "Unknown" property)
             (from_option Property.location "Unknown" property)
             (isoformat audit.(Audit.created_at))
             "Standard Audit"
             audit.(Audit.overall_score)
             audit.(Audit.compliance_zone)
             ((λ item, AuditData.Item.mk
                         item.(AuditItem.section)
                         item.(AuditItem.item_name)
                         item.(AuditItem.score)
                         item.(AuditItem.comments))
                <$> audit_audit_items audit db) in
         report ←! generate_audit_report audit_data;
         ReportGenerationResponse_init report
     end)
    (λ e, Raise (HTTPException 500 ("Failed to generate report: " +:+ str e))).

(** [gemini_service.suggest_audit_score] and the schema validation of its
    result. *)
Context {suggestion : Type}.
Variable suggest_audit_score : string → string → result suggestion.
Variable ScoreSuggestionResponse_init :
  suggestion → result (ScoreSuggestionResponse.t float).

Definition suggest_score (request : ScoreSuggestionRequest.t)
    : result (ScoreSuggestionResponse.t float) :=
  try_except
    (let item_description :=
       "Audit item " +:+ pretty request.(ScoreSuggestionRequest.audit_item_id) in
     suggestion ←! suggest_audit_score item_description
                     request.(ScoreSuggestionRequest.observations);
     ScoreSuggestionResponse_init suggestion)
    (λ e, Raise (HTTPException 500 ("Failed to suggest score: " +:+ str e))).
End endpoints.
End Ai.

(** ** [app/api/endpoints/auth.py] *)

Module Auth.
Import Schemas.

(** [HTTPException] with its optional headers, and any other exception with
    its [str(e)]. *)
Inductive exception : Type :=
  | HTTPException (status_code : Z) (detail : string) (headers : list (string * string))
  | OtherException (message : string).

Inductive result (A : Type) : Type :=
  | Return (a : A)
  | Raise (e : exception).
Arguments Return {A} a.
Arguments Raise {A} e.

Definition bind {A B} (m : result A) (k : A → result B) : result B :=
  match m with
  | Return a => k a
  | Raise e => Raise e
  end.

Definition status_of {A} (r : result A) : option Z :=
  match r with
  | Raise (HTTPException status_code _ _) => Some status_code
  | _ => None
  end.

(** [needle in haystack] on strings. *)
Fixpoint contains (needle haystack : string) : bool :=
  String.prefix needle haystack
  || match haystack with
     | EmptyString => false
     | String _ rest => contains needle rest
     end.

(** An attribute of a loaded row; a null column reads as [None]. *)
Definition getattr (user : User) (name : string) : pyval :=
  default PyNone (user !! name).

(** The request seen by [login_flexible]: the content-type header, and what
    reading the body as JSON or as a form gives, namely the string fields of
    the object or the exception raised on the way (unparsable body, or a
    body that is not an object). *)
Module Request.
Record t : Type := mk {
  content_type : option string;
  json : result (gmap string string);
  form : result (gmap string string)
}.
End Request.

Section endpoints.
(** [app.core.security] and [app.core.config.settings] *)
Variable verify_password : string → pyval → result bool.
Variable create_access_token : pyval → Z → result string.
Variable verify_token : string → result (option string).
Variable ACCESS_TOKEN_EXPIRE_MINUTES : Z.

Definition get_user_by_username (db : Db) (username : string) : option User :=
  Sql.first
    (Sql.where_ (λ u : User, Sql.eq (u !! "username") (PyStr username)) db.(users)).

(** Returns the user, or [None] for the [False] of the source. *)
Definition authenticate_user (db : Db) (username password : string)
    : result (option User) :=
  match get_user_by_username db username with
  | None => Return None
  | Some user =>
      bind (verify_password password (getattr user "password"))
        (λ ok, if ok then Return (Some user) else Return None)
  end.

Definition credentials_exception : exception :=
  HTTPException 401 "Could not validate credentials" [("WWW-Authenticate", "Bearer")].

Definition get_current_user (token : string) (db : Db) : result User :=
  bind (verify_token token) (λ username,
    match username with
    | None => Raise credentials_exception
    | Some username =>
        match get_user_by_username db username with
        | None => Raise credentials_exception
        | Some user => Return user
        end
    end).

Definition incorrect_login : exception :=
  HTTPException 401 "Incorrect username or password" [("WWW-Authenticate", "Bearer")].

(** The tail shared by the three login endpoints, written out in each of
    them in the source. *)
Definition issue_token (user : User) : result Token.t :=
  bind (create_access_token (getattr user "username") ACCESS_TOKEN_EXPIRE_MINUTES)
    (λ access_token, Return (Token.mk access_token "bearer")).

Definition login_form (username password : string) (db : Db) : result Token.t :=
  bind (authenticate_user db username password) (λ user,
    match user with
    | None => Raise incorrect_login
    | Some user => issue_token user
    end).

Definition login_json (login_data : LoginRequest.t) (db : Db) : result Token.t :=
  bind (authenticate_user db login_data.(LoginRequest.username)
          login_data.(LoginRequest.password)) (λ user,
    match user with
    | None => Raise incorrect_login
    | Some user => issue_token user
    end).

(** [body.get("username"), body.get("password")] *)
Definition credentials (body : gmap string string) : option string * option string :=
  (body !! "username", body !! "password").

Definition login_flexible (request : Request.t) (db : Db) : result Token.t :=
  let body :=
    let content_type := default "" request.(Request.content_type) in
    bind
      (if contains "application/json" content_type then
         bind request.(Request.json) (λ body, Return (credentials body))
       else if contains "application/x-www-form-urlencoded" content_type
               || contains "multipart/form-data" content_type then
         bind request.(Request.form) (λ form, Return (credentials form))
       else
         (* try: ... except: raise HTTPException(422, ...) *)
         match bind request.(Request.json) (λ body, Return (credentials body)) with
         | Return c => Return c
         | Raise _ =>
             Raise (HTTPException 422
                      "Invalid request format. Expected JSON or form data." [])
         end)
      (λ '(username, password),
         if negb (Truthy.of_str username) || negb (Truthy.of_str password) then
           Raise (HTTPException 422 "Username and password are required" [])
         else
           bind (authenticate_user db (default "" username) (default "" password))
             (λ user,
                match user with
                | None => Raise incorrect_login
                | Some user => issue_token user
                end)) in
  (* except HTTPException: raise / except Exception as e: raise 422 *)
  match body with
  | Return token => Return token
  | Raise (HTTPException status_code detail headers) =>
      Raise (HTTPException status_code detail headers)
  | Raise (OtherException message) =>
      Raise (HTTPException 422 ("Login processing error: " +:+ message) [])
  end.
End endpoints.
End Auth.

(** ** Vocabulary of the statements *)

(** Predicates in which the properties below are stated; none of them is
    used by the operations above. *)
Module Stated.
(** "[next_audit_date] is null or strictly earlier than today" *)
Definition needing_audit (today : Z) (p : Property.t) : Prop :=
  match p.(Property.next_audit_date) with
  | None => True
  | Some ts => Datetime.date ts < today
  end.
#[global] Instance needing_audit_dec today p : Decision (needing_audit today p).
Proof. unfold needing_audit. destruct (Property.next_audit_date p); apply _. Defined.

(** A list-valued criterion read as "supplied means not [None]": the value
    is a member of the list. *)
Definition member {A} (criterion : option (list A)) (v : option A) : Prop :=
  match criterion, v with
  | None, _ => True
  | Some l, Some x => x ∈ l
  | Some _, None => False
  end.

(** A list-valued criterion that counts only when the list is not empty. *)
Definition member_nonempty {A} (criterion : option (list A)) (v : option A) : Prop :=
  match criterion, v with
  | None, _ | Some [], _ => True
  | Some l, Some x => x ∈ l
  | Some _, None => False
  end.

Definition at_least (bound : option Z) (v : option Z) : Prop :=
  match bound, v with
  | None, _ => True
  | Some b, Some x => b ≤ x
  | Some _, None => False
  end.

Definition at_most (bound : option Z) (v : option Z) : Prop :=
  match bound, v with
  | None, _ => True
  | Some b, Some x => x ≤ b
  | Some _, None => False
  end.

#[global] Instance member_dec {A} `{EqDecision A} c (v : option A) :
  Decision (member c v).
Proof. destruct c, v; simpl; apply _. Defined.
#[global] Instance member_nonempty_dec {A} `{EqDecision A} c (v : option A) :
  Decision (member_nonempty c v).
Proof. destruct c as [[|??]|], v; simpl; apply _. Defined.
#[global] Instance at_least_dec b v : Decision (at_least b v).
Proof. destruct b, v; simpl; apply _. Defined.
#[global] Instance at_most_dec b v : Decision (at_most b v).
Proof. destruct b, v; simpl; apply _. Defined.

Section criteria.
Variables (property_ids auditor_ids : option (list Z))
          (status_list : option (list string))
          (date_from date_to score_min score_max : option Z)
          (compliance_zones : option (list string)).

(** The conjunction of the criteria, for a chosen reading [mem] of the
    list-valued ones. *)
Definition conjunction
    (mem : ∀ A, option (list A) → option A → Prop) (a : Audit.t) : Prop :=
  mem Z property_ids (Some a.(Audit.property_id))
  ∧ mem Z auditor_ids a.(Audit.auditor_id)
  ∧ mem string status_list (Some a.(Audit.status))
  ∧ at_least date_from (Some a.(Audit.created_at))
  ∧ at_most date_to (Some a.(Audit.created_at))
  ∧ at_least score_min a.(Audit.overall_score)
  ∧ at_most score_max a.(Audit.overall_score)
  ∧ mem string compliance_zones a.(Audit.compliance_zone).

(** Every criterion that is not [None] filters. *)
Definition selected : Audit.t → Prop := conjunction (@member).
(** Every criterion that is neither [None] nor an empty list filters. *)
Definition selected_nonempty : Audit.t → Prop := conjunction (@member_nonempty).

#[global] Instance selected_dec a : Decision (selected a).
Proof. unfold selected, conjunction. apply _. Defined.
#[global] Instance selected_nonempty_dec a : Decision (selected_nonempty a).
Proof. unfold selected_nonempty, conjunction. apply _. Defined.
End criteria.

(** "more than [n] days since the last audit" *)
Definition over (days : option Z) (n : Z) : Prop := ∃ d, days = Some d ∧ n < d.

(** What [except HTTPException: raise] followed by
    [except Exception as e: raise HTTPException(422, ...)] makes of an
    outcome of the login code. *)
Definition flexible_outcome (r : Auth.result Schemas.Token.t)
    : Auth.result Schemas.Token.t :=
  match r with
  | Auth.Raise (Auth.OtherException message) =>
      Auth.Raise (Auth.HTTPException 422 ("Login processing error: " +:+ message) [])
  | _ => r
  end.

(** "[next_audit_date] is set and falls on a day before today" *)
Definition overdue (today : Z) (p : Property.t) : Prop :=
  match p.(Property.next_audit_date) with
  | None => False
  | Some ts => Datetime.date ts < today
  end.
#[global] Instance overdue_dec today p : Decision (overdue today p).
Proof. unfold overdue. destruct (Property.next_audit_date p); apply _. Defined.

(** "the latest audit of a property": the audit of the property whose id
    is the greatest, if the property has audits. *)
Definition latest_audit (db : Db) (property_id : Z) : option Audit.t :=
  head (filter (λ a, a.(Audit.property_id) = property_id
                     ∧ Forall (λ a', a'.(Audit.property_id) = property_id →
                                     a'.(Audit.id) ≤ a.(Audit.id)) db.(audits))
          db.(audits)).

(** "more than [n] days since the last audit", as a test; no audit, no
    day count. *)
Definition more_than (n : Z) (days : option Z) : bool :=
  match days with
  | Some d => bool_decide (n < d)
  | None => false
  end.

(** The rule table of the risk level in the words of the specification,
    first match wins: "red zone yields HIGH; amber zone with more than 90
    days since the last audit yields HIGH; amber otherwise yields MEDIUM;
    more than 180 days since the last audit (any zone) yields MEDIUM;
    otherwise LOW". *)
Definition risk_label (zone : option string) (days : option Z) : string :=
  if bool_decide (zone = Some "red") then "HIGH"
  else if bool_decide (zone = Some "amber") && more_than 90 days then "HIGH"
  else if bool_decide (zone = Some "amber") then "MEDIUM"
  else if more_than 180 days then "MEDIUM"
  else "LOW".
End Stated.

(** ** Sample data *)

Module Sample.
Definition hotel : Property.t :=
  Property.mk 5 "Grand" "Pune" "West" None (Some "green") None None 0.
Definition inn : Property.t :=
  Property.mk 6 "Inn" "Goa" "West" None (Some "amber") (Some 70) (Some 100) 0.

Definition audit1 : Audit.t :=
  Audit.mk 1 5 (Some 2) None "completed" (Some 70) None None None (Some "amber")
    None None None None None None 0.
Definition audit2 : Audit.t :=
  Audit.mk 2 6 None None "scheduled" None None None None None
    None None None None None None 500.

(** An item added to [audit1] long after the audit was created. *)
Definition late_item : AuditItem.t :=
  AuditItem.mk 1 1 "Rooms" "Linen" "Rooms" "Linen" (Some 80) None None None
    (2000 * Datetime.microseconds_per_day).

(** The call time of the examples: day 2000 of the epoch. *)
Definition now : Z := 2000 * Datetime.microseconds_per_day.

Definition ann : User := {[ "id" := PyInt 1; "username" := PyStr "ann" ]}.

Definition db : Db := mkDb [ann] [hotel; inn] [audit1; audit2] [late_item].

(** A user row with its password hash, and a database holding it. *)
Definition bob : User :=
  {[ "id" := PyInt 2; "username" := PyStr "bob"; "password" := PyStr "hash:secret" ]}.
Definition accounts : Db := mkDb [ann; bob] [] [] [].

(** A stand-in for [verify_password]: the stored hash is "hash:" followed
    by the password. *)
Definition verify_password (password : string) (hashed : pyval) : Auth.result bool :=
  Auth.Return (bool_decide (hashed = PyStr ("hash:" +:+ password))).
(** A database in which the latest audit of [inn] is red and an older one
    is not, and the only audit of [hotel] is amber with score 70. *)
Definition audit3 : Audit.t :=
  Audit.mk 3 6 None None "completed" (Some 40) None None None (Some "red")
    None None None None None None 0.
Definition audit2_green : Audit.t :=
  Audit.mk 2 6 None None "completed" (Some 95) None None None (Some "green")
    None None None None None None 0.
Definition attention : Db := mkDb [] [hotel; inn] [audit1; audit2_green; audit3] [].

Definition create_access_token (sub : pyval) (minutes : Z) : Auth.result string :=
  Auth.Return (match sub with PyStr name => "token:" +:+ name | _ => "token" end).
End Sample.

(** * Properties *)

(** ** Facts about the SQL primitives *)

Section sql_facts.
Context {A : Type}.
Implicit Types (pk : A → Z) (rows : list A).

Lemma holds_eq (x y : Z) : Sql.holds (Sql.eq (Some x) y) ↔ x = y.
Proof.
  unfold Sql.holds, Sql.eq; simpl. split.
  - intros [= H]. by apply bool_decide_eq_true in H.
  - intros ->. by rewrite bool_decide_eq_true_2.
Qed.

Lemma holds_lt (x y : Z) : Sql.holds (Sql.lt (Some x) y) ↔ x < y.
Proof.
  unfold Sql.holds, Sql.lt; simpl. split.
  - intros [= H]. by apply bool_decide_eq_true in H.
  - intros H. by rewrite bool_decide_eq_true_2.
Qed.

Lemma by_pk_cons pk k r rows :
  Sql.by_pk pk k (r :: rows) = if decide (pk r = k) then Some r else Sql.by_pk pk k rows.
Proof.
  unfold Sql.by_pk, Sql.where_, Sql.first. rewrite filter_cons.
  destruct (decide (Sql.holds _)) as [H|H]; rewrite holds_eq in H;
    destruct (decide (pk r = k)); done.
Qed.

Lemma by_pk_Some pk k rows r : Sql.by_pk pk k rows = Some r → r ∈ rows ∧ pk r = k.
Proof.
  induction rows as [|r' rows IH]; [done|]. rewrite by_pk_cons.
  destruct (decide (pk r' = k)).
  - intros [= <-]. split; [left|done].
  - intros [??]%IH. split; [by right|done].
Qed.

Lemma by_pk_None pk k rows : Sql.by_pk pk k rows = None ↔ ∀ r, r ∈ rows → pk r ≠ k.
Proof.
  induction rows as [|r' rows IH].
  - split; [|done]. by intros _ r ?%elem_of_nil.
  - rewrite by_pk_cons. destruct (decide (pk r' = k)) as [Hk|Hk].
    + split; [done|]. intros H. destruct (H r'); [left|done].
    + rewrite IH. split.
      * intros H r [->|?]%elem_of_cons; auto.
      * intros H r ?. apply H. by right.
Qed.

(** After the flush the same lookup returns the modified object. *)
Lemma by_pk_flush pk k obj rows :
  pk obj = k →
  Sql.by_pk pk k (Sql.flush pk k obj rows) = (λ _, obj) <$> Sql.by_pk pk k rows.
Proof.
  intros Hobj. induction rows as [|r rows IH]; [done|].
  unfold Sql.flush in *. rewrite fmap_cons, !by_pk_cons.
  destruct (decide (pk r = k)); [by rewrite decide_True|].
  by rewrite decide_False.
Qed.

(** Rows stored under another key are left alone, in place. *)
Lemma flush_lookup_other pk k obj rows (i : nat) r :
  rows !! i = Some r → pk r ≠ k → Sql.flush pk k obj rows !! i = Some r.
Proof.
  intros Hi Hr. unfold Sql.flush. rewrite list_lookup_fmap, Hi. simpl.
  by rewrite decide_False.
Qed.
End sql_facts.

(** ** The id-keyed updates of [DatabaseQueries] *)

Section updates.
Import DatabaseQueries.

(** The audit written by [update_audit_scores], as a function of the one found. *)
Lemma update_audit_scores_found now audit_id overall_score cleanliness_score
    branding_score operational_score compliance_zone findings action_plan db audit :
  Sql.by_pk Audit.id audit_id db.(audits) = Some audit →
  ∃ audit',
    update_audit_scores now audit_id overall_score cleanliness_score branding_score
      operational_score compliance_zone findings action_plan db
    = (Some audit', with_audits (Sql.flush Audit.id audit_id audit' db.(audits)) db)
    ∧ Audit.id audit' = audit_id
    ∧ audit' =
        Audit.mk (Audit.id audit) (Audit.property_id audit) (Audit.auditor_id audit)
          (Audit.reviewer_id audit) "submitted" (Some overall_score)
          (if decide (cleanliness_score ≠ None) then cleanliness_score
           else Audit.cleanliness_score audit)
          (if decide (branding_score ≠ None) then branding_score
           else Audit.branding_score audit)
          (if decide (operational_score ≠ None) then operational_score
           else Audit.operational_score audit)
          (if Truthy.of_str compliance_zone then compliance_zone
           else Audit.compliance_zone audit)
          (if Truthy.of_dict findings then findings else Audit.findings audit)
          (if Truthy.of_dict action_plan then action_plan else Audit.action_plan audit)
          (Audit.ai_report audit) (Audit.ai_insights audit) (Some now)
          (Audit.reviewed_at audit) (Audit.created_at audit).
Proof.
  intros Hfind. unfold update_audit_scores. rewrite Hfind.
  eexists. split; [reflexivity|].
  apply by_pk_Some in Hfind as [_ Hid]. destruct audit; simpl in *.
  split; repeat case_decide; repeat case_match; done.
Qed.

(** C3. For an existing audit, [update_audit_scores] leaves it stored with
    status "submitted" and [submitted_at] equal to the call time, whatever
    optional parameters are passed; each field whose optional parameter is
    [None], and each field that has no parameter, keeps its prior value;
    the call returns the stored audit; the other audits and the other
    tables are untouched. *)
Theorem update_audit_scores_submits_and_frames now audit_id overall_score
    cleanliness_score branding_score operational_score compliance_zone findings
    action_plan db audit :
  Sql.by_pk Audit.id audit_id db.(audits) = Some audit →
  ∃ audit' db',
    update_audit_scores now audit_id overall_score cleanliness_score branding_score
      operational_score compliance_zone findings action_plan db = (Some audit', db')
    ∧ Sql.by_pk Audit.id audit_id db'.(audits) = Some audit'
    ∧ Audit.status audit' = "submitted"
    ∧ Audit.submitted_at audit' = Some now
    ∧ (cleanliness_score = None →
         Audit.cleanliness_score audit' = Audit.cleanliness_score audit)
    ∧ (branding_score = None →
         Audit.branding_score audit' = Audit.branding_score audit)
    ∧ (operational_score = None →
         Audit.operational_score audit' = Audit.operational_score audit)
    ∧ (compliance_zone = None →
         Audit.compliance_zone audit' = Audit.compliance_zone audit)
    ∧ (findings = None → Audit.findings audit' = Audit.findings audit)
    ∧ (action_plan = None → Audit.action_plan audit' = Audit.action_plan audit)
    ∧ Audit.id audit' = Audit.id audit
    ∧ Audit.property_id audit' = Audit.property_id audit
    ∧ Audit.auditor_id audit' = Audit.auditor_id audit
    ∧ Audit.reviewer_id audit' = Audit.reviewer_id audit
    ∧ Audit.ai_report audit' = Audit.ai_report audit
    ∧ Audit.ai_insights audit' = Audit.ai_insights audit
    ∧ Audit.reviewed_at audit' = Audit.reviewed_at audit
    ∧ Audit.created_at audit' = Audit.created_at audit
    ∧ (∀ (i : nat) other,
         db.(audits) !! i = Some other → Audit.id other ≠ audit_id →
         db'.(audits) !! i = Some other)
    ∧ db'.(users) = db.(users)
    ∧ db'.(properties) = db.(properties)
    ∧ db'.(audit_items) = db.(audit_items).
Proof.
  intros Hfind.
  destruct (update_audit_scores_found now audit_id overall_score cleanliness_score
              branding_score operational_score compliance_zone findings action_plan
              db audit Hfind) as (audit' & Hrun & Hid & Heq).
  exists audit', (with_audits (Sql.flush Audit.id audit_id audit' db.(audits)) db).
  split; [done|]. split.
  { simpl. rewrite by_pk_flush by done. by rewrite Hfind. }
  assert (Hothers : ∀ (i : nat) other,
            db.(audits) !! i = Some other → Audit.id other ≠ audit_id →
            Sql.flush Audit.id audit_id audit' db.(audits) !! i = Some other).
  { intros i other Hi Hne. by apply flush_lookup_other. }
  rewrite Heq in Hothers |- *; simpl.
  repeat split; try done; by intros ->.
Qed.

(** C10. For an existing audit, [update_audit_scores] tests
    [compliance_zone], [findings] and [action_plan] for truthiness: an empty
    string or an empty dictionary leaves the stored field unchanged, a
    non-empty value is written.  [overall_score] is always overwritten,
    status and [submitted_at] are always set, and the three optional scores
    are written whenever they are not [None], zero included. *)
Theorem update_audit_scores_truthiness now audit_id overall_score
    cleanliness_score branding_score operational_score compliance_zone findings
    action_plan db audit :
  Sql.by_pk Audit.id audit_id db.(audits) = Some audit →
  ∃ audit' db',
    update_audit_scores now audit_id overall_score cleanliness_score branding_score
      operational_score compliance_zone findings action_plan db = (Some audit', db')
    ∧ Sql.by_pk Audit.id audit_id db'.(audits) = Some audit'
    ∧ (compliance_zone = Some "" →
         Audit.compliance_zone audit' = Audit.compliance_zone audit)
    ∧ (findings = Some ∅ → Audit.findings audit' = Audit.findings audit)
    ∧ (action_plan = Some ∅ → Audit.action_plan audit' = Audit.action_plan audit)
    ∧ (∀ z, compliance_zone = Some z → z ≠ "" →
         Audit.compliance_zone audit' = Some z)
    ∧ (∀ d, findings = Some d → d ≠ ∅ → Audit.findings audit' = Some d)
    ∧ (∀ d, action_plan = Some d → d ≠ ∅ → Audit.action_plan audit' = Some d)
    ∧ Audit.overall_score audit' = Some overall_score
    ∧ Audit.status audit' = "submitted"
    ∧ Audit.submitted_at audit' = Some now
    ∧ (∀ v, cleanliness_score = Some v → Audit.cleanliness_score audit' = Some v)
    ∧ (∀ v, branding_score = Some v → Audit.branding_score audit' = Some v)
    ∧ (∀ v, operational_score = Some v → Audit.operational_score audit' = Some v).
Proof.
  intros Hfind.
  destruct (update_audit_scores_found now audit_id overall_score cleanliness_score
              branding_score operational_score compliance_zone findings action_plan
              db audit Hfind) as (audit' & Hrun & Hid & Heq).
  exists audit', (with_audits (Sql.flush Audit.id audit_id audit' db.(audits)) db).
  split; [done|]. split.
  { simpl. rewrite by_pk_flush by done. by rewrite Hfind. }
  assert (Hdict : ∀ d : Dict, d ≠ ∅ → Truthy.of_dict (Some d) = true).
  { intros d Hd. simpl. apply bool_decide_eq_true_2.
    intros Hsz. apply Hd. by apply map_size_empty_iff. }
  rewrite Heq; simpl.
  repeat split; try done.
  - by intros ->.
  - by intros ->.
  - by intros ->.
  - intros z -> Hz. simpl. by rewrite bool_decide_eq_true_2.
  - intros d -> Hd. by rewrite Hdict.
  - intros d -> Hd. by rewrite Hdict.
  - by intros v ->.
  - by intros v ->.
  - by intros v ->.
Qed.

(** C4. For an existing property and any integer score,
    [update_property_status] leaves it stored with status "green" exactly
    when score >= 80, "amber" exactly when 60 <= score < 80 and "red"
    exactly when score < 60, with [last_audit_score] equal to the score and
    [next_audit_date] equal to the call time plus 90 days. *)
Theorem update_property_status_thresholds now property_id score db property :
  Sql.by_pk Property.id property_id db.(properties) = Some property →
  ∃ property' db',
    update_property_status now property_id score db = (Some property', db')
    ∧ Sql.by_pk Property.id property_id db'.(properties) = Some property'
    ∧ (Property.status property' = Some "green" ↔ 80 ≤ score)
    ∧ (Property.status property' = Some "amber" ↔ 60 ≤ score < 80)
    ∧ (Property.status property' = Some "red" ↔ score < 60)
    ∧ Property.last_audit_score property' = Some score
    ∧ Property.next_audit_date property' = Some (now + 90 * 86400000000).
Proof.
  intros Hfind. unfold update_property_status. rewrite Hfind.
  eexists _, _. split; [reflexivity|].
  pose proof (by_pk_Some _ _ _ _ Hfind) as [_ Hid].
  destruct property; simpl in *. split.
  { rewrite by_pk_flush by (repeat case_decide; done). by rewrite Hfind. }
  repeat case_decide; simpl; repeat split; try done; try lia; intros [=].
Qed.

(** C9. Every id-keyed update of [DatabaseQueries], called with an id that
    resolves to no row, returns [None] and leaves the database as it was;
    [assign_reviewer], the one of them whose [commit] can be refused, returns
    [None] there and does not raise. *)
Theorem update_not_found_returns_none :
  (∀ user_id kwargs db,
     Sql.first (Sql.where_ (λ u : User, Sql.eq (u !! "id") (PyInt user_id)) db.(users))
       = None →
     update_user user_id kwargs db = (None, db))
  ∧ (∀ now property_id score db,
       Sql.by_pk Property.id property_id db.(properties) = None →
       update_property_status now property_id score db = (None, db))
  ∧ (∀ now audit_id overall_score cleanliness_score branding_score operational_score
       compliance_zone findings action_plan db,
       Sql.by_pk Audit.id audit_id db.(audits) = None →
       update_audit_scores now audit_id overall_score cleanliness_score branding_score
         operational_score compliance_zone findings action_plan db = (None, db))
  ∧ (∀ now audit_id reviewer_id db,
       Sql.by_pk Audit.id audit_id db.(audits) = None →
       assign_reviewer now audit_id reviewer_id db = (Exn.Return None, db))
  ∧ (∀ item_id ai_analysis ai_suggested_score score comments db,
       Sql.by_pk AuditItem.id item_id db.(audit_items) = None →
       update_audit_item_with_ai item_id ai_analysis ai_suggested_score score
         comments db = (None, db))
  ∧ (∀ audit_id ai_report ai_insights db,
       Sql.by_pk Audit.id audit_id db.(audits) = None →
       update_audit_with_ai_report audit_id ai_report ai_insights db = (None, db)).
Proof.
  repeat split; intros;
    match goal with H : _ = None |- _ => revert H end;
    [ unfold update_user | unfold update_property_status
    | unfold update_audit_scores | unfold assign_reviewer
    | unfold update_audit_item_with_ai | unfold update_audit_with_ai_report ];
    by intros ->.
Qed.
End updates.

(** ** Facts about [ORDER BY] *)

#[global] Instance asc_nullsfirst_total : Total Order.asc_nullsfirst.
Proof. intros [x|] [y|]; simpl; auto. lia. Qed.
#[global] Instance asc_nullsfirst_trans : Transitive Order.asc_nullsfirst.
Proof. intros [x|] [y|] [z|]; simpl; try done. lia. Qed.
#[global] Instance desc_total : Total Order.desc.
Proof. intros x y. unfold Order.desc. lia. Qed.
#[global] Instance desc_trans : Transitive Order.desc.
Proof. intros x y z. unfold Order.desc. lia. Qed.
#[global] Instance by_total {A K} (key : A → K) (R : relation K) `{!Total R} :
  Total (Order.by_ key R).
Proof. intros a b. unfold Order.by_. apply (total R). Qed.
#[global] Instance by_trans {A K} (key : A → K) (R : relation K) `{!Transitive R} :
  Transitive (Order.by_ key R).
Proof. intros a b c. unfold Order.by_. apply transitivity. Qed.

Section order_facts.
Context {A K : Type} (key : A → K) (R : relation K) `{∀ x y, Decision (R x y)}.

Lemma order_by_perm rows : Order.order_by key R rows ≡ₚ rows.
Proof. apply merge_sort_Permutation. Qed.

Lemma order_by_elem_of rows a : a ∈ Order.order_by key R rows ↔ a ∈ rows.
Proof. by rewrite order_by_perm. Qed.

Lemma order_by_sorted `{!Total R, !Transitive R} rows :
  StronglySorted (Order.by_ key R) (Order.order_by key R rows).
Proof. apply StronglySorted_merge_sort; apply _. Qed.

(** In a sorted result an earlier row never follows a later one. *)
Lemma sorted_lookup (S : relation A) (l : list A) (i j : nat) a b :
  StronglySorted S l → (i < j)%nat → l !! i = Some a → l !! j = Some b → S a b.
Proof.
  intros Hl. revert i j. induction Hl as [|x l Hl IH Hx]; intros i j Hij Hi Hj.
  - by rewrite lookup_nil in Hi.
  - destruct j as [|j]; [lia|]. simpl in Hj. destruct i as [|i].
    + simpl in Hi. injection Hi as ->.
      rewrite Forall_forall in Hx. apply Hx. by eapply list_elem_of_lookup_2.
    + simpl in Hi. apply (IH i j); [lia|done..].
Qed.
End order_facts.

(** ** Properties due for an audit *)

Section needing_audit.
Import DatabaseQueries.

Lemma date_lt_midnight ts today :
  ts < Datetime.midnight today ↔ Datetime.date ts < today.
Proof.
  unfold Datetime.midnight, Datetime.date, Datetime.microseconds_per_day. split.
  - intros H. apply Z.div_lt_upper_bound; lia.
  - intros H. destruct (decide (ts < today * 86400000000)) as [|Hge]; [done|].
    assert (today ≤ ts `div` 86400000000); [|lia].
    apply Z.div_le_lower_bound; lia.
Qed.

Lemma needs_audit_stated today p :
  Sql.holds (needs_audit today p) ↔ Stated.needing_audit today p.
Proof.
  unfold needs_audit, Stated.needing_audit, Sql.holds.
  destruct (Property.next_audit_date p) as [ts|]; simpl; [|done].
  rewrite <- date_lt_midnight. case_bool_decide; naive_solver.
Qed.

(** C7. [get_properties_needing_audit] returns exactly the properties whose
    [next_audit_date] is null or falls on a day strictly before today, each
    once, in ascending order of [next_audit_date] with the nulls first. *)
Theorem get_properties_needing_audit_exact_sorted now db :
  let result := get_properties_needing_audit now db in
  result ≡ₚ filter (Stated.needing_audit (Datetime.date now)) db.(properties)
  ∧ (∀ p, p ∈ result ↔
          p ∈ db.(properties)
          ∧ (Property.next_audit_date p = None
             ∨ ∃ ts, Property.next_audit_date p = Some ts
                     ∧ Datetime.date ts < Datetime.date now))
  ∧ (∀ (i j : nat) p q,
       (i < j)%nat → result !! i = Some p → result !! j = Some q →
       match Property.next_audit_date p, Property.next_audit_date q with
       | None, _ => True
       | Some _, None => False
       | Some a, Some b => a ≤ b
       end).
Proof.
  intros result.
  assert (Hperm : result ≡ₚ
            filter (Stated.needing_audit (Datetime.date now)) db.(properties)).
  { unfold result, get_properties_needing_audit. rewrite order_by_perm.
    unfold Sql.where_. erewrite list_filter_iff; [done|].
    intros p. apply needs_audit_stated. }
  split; [done|]. split.
  - intros p. rewrite Hperm, list_elem_of_filter. unfold Stated.needing_audit.
    destruct (Property.next_audit_date p) as [ts|]; split.
    + intros [??]. split; [done|]. right. by exists ts.
    + intros [? [|(ts' & [= <-] & ?)]]; done.
    + intros [_ ?]. split; [done|]. by left.
    + by intros [? _].
  - intros i j p q Hij Hi Hj.
    apply (sorted_lookup (Order.by_ Property.next_audit_date Order.asc_nullsfirst)
             result i j p q); [|done..].
    apply order_by_sorted; apply _.
Qed.
End needing_audit.

(** ** The audit filter of [QueryBuilder] *)

Section audit_filter.
Import QueryBuilder.

Lemma filter_all {A} (P : A → Prop) `{∀ x, Decision (P x)} (l : list A) :
  (∀ x, P x) → filter P l = l.
Proof.
  intros HP. induction l as [|x l IH]; [done|].
  by rewrite filter_cons_True, IH.
Qed.

Lemma holds_in {A} `{EqDecision A} (v : option A) (l : list A) :
  Sql.holds (Sql.in_ v l) ↔ ∃ x, v = Some x ∧ x ∈ l.
Proof.
  unfold Sql.holds, Sql.in_. destruct v as [x|]; simpl.
  - case_bool_decide; split.
    + intros _. by exists x.
    + done.
    + done.
    + intros (? & [= <-] & ?). done.
  - split; [done|]. by intros (? & [=] & _).
Qed.

(** One [if criterion: query = query.filter(col.in_(criterion))] step. *)
Lemma in_step {A} `{EqDecision A} (criterion : option (list A))
    (col : Audit.t → option A) (query : list Audit.t) :
  (if Truthy.of_list criterion
   then Sql.where_ (λ a, Sql.in_ (col a) (default [] criterion)) query
   else query)
  = filter (λ a, Stated.member_nonempty criterion (col a)) query.
Proof.
  destruct criterion as [[|x l]|]; simpl.
  - by rewrite filter_all.
  - unfold Sql.where_. apply list_filter_iff. intros a. rewrite holds_in.
    destruct (col a) as [v|]; simpl.
    + split; [by intros (? & [= <-] & ?)|]. intros ?. by exists v.
    + split; [by intros (? & [=] & _)|done].
  - by rewrite filter_all.
Qed.

Lemma ge_step (bound : option Z) (col : Audit.t → option Z) (query : list Audit.t) :
  match bound with
  | Some b => Sql.where_ (λ a, Sql.ge (col a) b) query
  | None => query
  end
  = filter (λ a, Stated.at_least bound (col a)) query.
Proof.
  destruct bound as [b|]; simpl; [|by rewrite filter_all].
  unfold Sql.where_. apply list_filter_iff. intros a.
  unfold Sql.holds, Sql.ge. destruct (col a); simpl; [|done].
  case_bool_decide; split; (done || by intros [=]).
Qed.

Lemma le_step (bound : option Z) (col : Audit.t → option Z) (query : list Audit.t) :
  match bound with
  | Some b => Sql.where_ (λ a, Sql.le (col a) b) query
  | None => query
  end
  = filter (λ a, Stated.at_most bound (col a)) query.
Proof.
  destruct bound as [b|]; simpl; [|by rewrite filter_all].
  unfold Sql.where_. apply list_filter_iff. intros a.
  unfold Sql.holds, Sql.le. destruct (col a); simpl; [|done].
  case_bool_decide; split; (done || by intros [=]).
Qed.

(** The [if date_from:] and [if date_to:] steps: a [datetime] is always truthy. *)
Lemma date_from_step (bound : option Z) (col : Audit.t → option Z) query :
  (if Truthy.of_datetime bound
   then Sql.where_ (λ a, Sql.ge (col a) (default 0 bound)) query else query)
  = filter (λ a, Stated.at_least bound (col a)) query.
Proof. rewrite <- ge_step. by destruct bound. Qed.

Lemma date_to_step (bound : option Z) (col : Audit.t → option Z) query :
  (if Truthy.of_datetime bound
   then Sql.where_ (λ a, Sql.le (col a) (default 0 bound)) query else query)
  = filter (λ a, Stated.at_most bound (col a)) query.
Proof. rewrite <- le_step. by destruct bound. Qed.

(** The query before [order_by]: one filter by the conjunction. *)
Lemma build_audit_filter_query_unfold property_ids auditor_ids status_list
    date_from date_to score_min score_max compliance_zones db :
  build_audit_filter_query property_ids auditor_ids status_list date_from date_to
    score_min score_max compliance_zones db
  = Order.order_by Audit.created_at Order.desc
      (filter (Stated.selected_nonempty property_ids auditor_ids status_list
                 date_from date_to score_min score_max compliance_zones)
         db.(audits)).
Proof.
  unfold build_audit_filter_query. f_equal.
  rewrite (in_step property_ids (λ a, Some (Audit.property_id a))).
  rewrite (in_step auditor_ids Audit.auditor_id).
  rewrite (in_step status_list (λ a, Some (Audit.status a))).
  rewrite (date_from_step date_from (λ a, Some (Audit.created_at a))).
  rewrite (date_to_step date_to (λ a, Some (Audit.created_at a))).
  rewrite (ge_step score_min Audit.overall_score).
  rewrite (le_step score_max Audit.overall_score).
  rewrite (in_step compliance_zones Audit.compliance_zone).
  rewrite !list_filter_filter. apply list_filter_iff. intros a.
  unfold Stated.selected_nonempty, Stated.conjunction. tauto.
Qed.

(** C5, as stated, fails: with [property_ids = []] the audit of property 5
    is returned, although it satisfies no membership in the empty list. *)
Lemma build_audit_filter_query_empty_list_keeps_all :
  Sample.audit1 ∈
    build_audit_filter_query (Some []) None None None None None None None Sample.db
  ∧ ¬ Stated.selected (Some []) None None None None None None None Sample.audit1.
Proof.
  split.
  - vm_compute. right. left.
  - intros [Hmem _]. simpl in Hmem. by apply elem_of_nil in Hmem.
Qed.

(** C5, amended. [build_audit_filter_query] returns, each once, the audits
    that satisfy every criterion which is neither [None] nor an empty list
    (membership for a list, the bound for a date or a score; a null column
    satisfies no criterion), ordered by [created_at] descending.  Without
    criteria it returns all audits; with [property_ids = [5]] and
    [status_list = ["completed"; "reviewed"]] it returns exactly the audits
    of property 5 in one of the two statuses. *)
Theorem build_audit_filter_query_conjunction :
  (∀ property_ids auditor_ids status_list date_from date_to score_min score_max
     compliance_zones db,
     let result :=
       build_audit_filter_query property_ids auditor_ids status_list date_from
         date_to score_min score_max compliance_zones db in
     let selected :=
       Stated.selected_nonempty property_ids auditor_ids status_list date_from
         date_to score_min score_max compliance_zones in
     result ≡ₚ filter selected db.(audits)
     ∧ (∀ a, a ∈ result ↔ a ∈ db.(audits) ∧ selected a)
     ∧ (∀ (i j : nat) a b,
          (i < j)%nat → result !! i = Some a → result !! j = Some b →
          Audit.created_at b ≤ Audit.created_at a))
  ∧ (∀ db,
       build_audit_filter_query None None None None None None None None db
       ≡ₚ db.(audits))
  ∧ (∀ db a,
       a ∈ build_audit_filter_query (Some [5]) None (Some ["completed"; "reviewed"])
             None None None None None db
       ↔ a ∈ db.(audits)
         ∧ Audit.property_id a = 5
         ∧ (Audit.status a = "completed" ∨ Audit.status a = "reviewed")).
Proof.
  split; [|split].
  - intros. unfold result. rewrite build_audit_filter_query_unfold.
    fold selected. split; [apply order_by_perm|]. split.
    + intros a. rewrite order_by_elem_of, list_elem_of_filter. tauto.
    + intros i j a b Hij Hi Hj.
      change (Order.by_ Audit.created_at Order.desc a b).
      eapply sorted_lookup; [|exact Hij|exact Hi|exact Hj].
      apply order_by_sorted; apply _.
  - intros db. rewrite build_audit_filter_query_unfold, order_by_perm.
    by rewrite filter_all.
  - intros db a.
    rewrite build_audit_filter_query_unfold, order_by_elem_of, list_elem_of_filter.
    unfold Stated.selected_nonempty, Stated.conjunction; simpl.
    rewrite !elem_of_cons, !elem_of_nil.
    destruct (Audit.auditor_id a), (Audit.overall_score a),
      (Audit.compliance_zone a); tauto.
Qed.
End audit_filter.

(** ** Risk assessment *)

Section risk.
Import DatabaseQueries.

Lemma risk_row_level now joined :
  RiskRow.risk_level (risk_row now joined)
  = risk_level (RiskRow.compliance_zone (risk_row now joined))
      (RiskRow.days_since_audit (risk_row now joined)).
Proof. by destruct joined as [[??]?]. Qed.

Lemma gt_over days n : Sql.gt days n = Some true ↔ Stated.over days n.
Proof.
  unfold Sql.gt, Stated.over. destruct days as [d|]; simpl.
  - case_bool_decide; split.
    + intros _. by exists d.
    + done.
    + done.
    + by intros (? & [= <-] & ?).
  - split; [done|]. by intros (? & [=] & _).
Qed.

Lemma risk_level_amber days :
  risk_level (Some "amber") days
  = if decide (Sql.gt days 90 = Some true) then "HIGH" else "MEDIUM".
Proof.
  unfold risk_level. simpl. destruct (Sql.gt days 90) as [[]|]; by simpl.
Qed.

Lemma risk_level_other zone days :
  zone ≠ Some "red" → zone ≠ Some "amber" →
  risk_level zone days
  = if decide (Sql.gt days 180 = Some true) then "MEDIUM" else "LOW".
Proof.
  intros Hred Hamber. unfold risk_level, Sql.eq.
  destruct zone as [z|]; simpl.
  - rewrite !bool_decide_eq_false_2 by congruence. simpl.
    destruct (Sql.gt days 90) as [[]|], (Sql.gt days 180) as [[]|]; by simpl.
  - destruct (Sql.gt days 90) as [[]|], (Sql.gt days 180) as [[]|]; by simpl.
Qed.

Lemma get_risk_assessment_level now db :
  Forall (λ row,
            RiskRow.risk_level row
            = risk_level (RiskRow.compliance_zone row)
                (RiskRow.days_since_audit row))
    (get_risk_assessment now db).
Proof.
  apply Forall_forall. intros row.
  unfold get_risk_assessment. rewrite order_by_elem_of, list_elem_of_fmap.
  intros (joined & -> & _). apply risk_row_level.
Qed.

Lemma risk_level_rules zone days :
  let over n := ∃ d, days = Some d ∧ n < d in
  (zone = Some "red" → risk_level zone days = "HIGH")
  ∧ (zone = Some "amber" → over 90 → risk_level zone days = "HIGH")
  ∧ (zone = Some "amber" → ¬ over 90 → risk_level zone days = "MEDIUM")
  ∧ (zone ≠ Some "red" → zone ≠ Some "amber" → over 180 →
       risk_level zone days = "MEDIUM")
  ∧ (zone ≠ Some "red" → zone ≠ Some "amber" → ¬ over 180 →
       risk_level zone days = "LOW").
Proof.
  intros over'. repeat split.
  - by intros ->.
  - intros -> Hover%gt_over. by rewrite risk_level_amber, decide_True.
  - intros -> Hover. rewrite risk_level_amber, decide_False; [done|].
    by rewrite gt_over.
  - intros ?? Hover%gt_over. by rewrite risk_level_other, decide_True.
  - intros ?? Hover. rewrite risk_level_other by done.
    rewrite decide_False; [done|]. by rewrite gt_over.
Qed.

Lemma gt_more_than days n : Sql.gt days n = Some true ↔ Stated.more_than n days = true.
Proof.
  unfold Sql.gt, Stated.more_than. destruct days as [d|]; simpl; [|done].
  split; [by intros [= ->]|by intros ->].
Qed.

Lemma risk_level_label zone days :
  risk_level zone days = Stated.risk_label zone days.
Proof.
  unfold Stated.risk_label.
  destruct (decide (zone = Some "red")) as [->|Hred]; [done|].
  rewrite (bool_decide_eq_false_2 _ Hred).
  destruct (decide (zone = Some "amber")) as [->|Hamber].
  - rewrite risk_level_amber. simpl.
    destruct (Stated.more_than 90 days) eqn:Hmore.
    + rewrite decide_True; [done|]. by apply gt_more_than.
    + rewrite decide_False; [done|]. rewrite gt_more_than. by rewrite Hmore.
  - rewrite (bool_decide_eq_false_2 _ Hamber). simpl.
    rewrite risk_level_other by done.
    destruct (Stated.more_than 180 days) eqn:Hmore.
    + rewrite decide_True; [done|]. by apply gt_more_than.
    + rewrite decide_False; [done|]. rewrite gt_more_than. by rewrite Hmore.
Qed.
End risk.

(** ** Retention cleanup *)

Section cleanup.
Import DatabaseQueries.

Lemma filter_iff_elem_of {A} (P Q : A → Prop)
    `{∀ x, Decision (P x)} `{∀ x, Decision (Q x)} (l : list A) :
  (∀ x, x ∈ l → P x ↔ Q x) → filter P l = filter Q l.
Proof.
  induction l as [|x l IH]; intros HPQ; [done|].
  rewrite !filter_cons, IH by (intros ??; apply HPQ; by right).
  apply decide_ext, HPQ. left.
Qed.

(** C6. [cleanup_old_data] deletes nothing and returns no counts: on every
    input its first statement, the [delete()] of the query of audit items
    joined to their audits, raises SQLAlchemy's [InvalidRequestError]
    before any SQL is sent, so the call raises and every table is stored as
    it was. On the sample data, with the default window of 1095 days at day
    2000, an audit created before the cutoff and its item are still stored
    after the call. *)
Theorem cleanup_old_data_raises :
  (∀ now days db,
     cleanup_old_data now days db = (Exn.Raise InvalidRequestError, db)
     ∧ delete_old_audit_items (now - Datetime.timedelta_days days) db
       = Exn.Raise InvalidRequestError
     ∧ (∀ counts, (cleanup_old_data now days db).1 ≠ Exn.Return counts)
     ∧ (cleanup_old_data now days db).2 = db)
  ∧ Audit.created_at Sample.audit1 < Sample.now - Datetime.timedelta_days 1095
  ∧ Sample.audit1 ∈ audits (snd (cleanup_old_data Sample.now 1095 Sample.db))
  ∧ Sample.late_item ∈ audit_items (snd (cleanup_old_data Sample.now 1095 Sample.db))
  ∧ fst (cleanup_old_data Sample.now 1095 Sample.db)
    = Exn.Raise
        (Exn.OtherException
           "Can't call Query.update() or Query.delete() when join(), outerjoin(), select_from(), or from_self() has been called").
Proof.
  assert (Hraise : ∀ now days db,
            cleanup_old_data now days db = (Exn.Raise InvalidRequestError, db)).
  { intros now days db. reflexivity. }
  split; [|split; [|split; [|split]]].
  - intros now days db. rewrite (Hraise now days db). repeat split. by intros ?.
  - vm_compute. reflexivity.
  - rewrite (Hraise Sample.now 1095 Sample.db). simpl. left.
  - rewrite (Hraise Sample.now 1095 Sample.db). simpl. left.
  - by rewrite (Hraise Sample.now 1095 Sample.db).
Qed.
End cleanup.

(** ** The AI endpoints *)

Section ai_endpoints.
Import Exn Schemas.

Context {float analysis report : Type}.
Context (str_http : Z → string → string) (isoformat : Z → string).
Context (analyze_audit_photo : string → string → option Z → result analysis)
        (generate_audit_report : Ai.AuditData.t → result report)
        (PhotoAnalysisResponse_init : analysis → result (PhotoAnalysisResponse.t float))
        (ReportGenerationResponse_init : report → result ReportGenerationResponse.t).

Local Abbreviation analyze_photo :=
  (Ai.analyze_photo str_http analyze_audit_photo PhotoAnalysisResponse_init).
Local Abbreviation generate_report :=
  (Ai.generate_report str_http isoformat generate_audit_report
     ReportGenerationResponse_init).

(** C8. When the external AI call fails with an exception [e],
    [analyze_photo] raises an [HTTPException] with status 500 whose detail
    is "Failed to analyze photo: " followed by [str(e)]; it returns no
    response object. *)
Theorem analyze_photo_external_failure request e :
  analyze_audit_photo
    request.(PhotoAnalysisRequest.image_base64)
    request.(PhotoAnalysisRequest.context)
    request.(PhotoAnalysisRequest.audit_item_id) = Raise e →
  analyze_photo request
  = Raise (HTTPException 500 ("Failed to analyze photo: " +:+ Ai.str str_http e))
  ∧ ∀ response, analyze_photo request ≠ Return response.
Proof.
  intros Hcall. unfold Ai.analyze_photo. rewrite Hcall. simpl. split; [done|].
  intros response. discriminate.
Qed.

(** C1 (the behaviour of the code). When [audit_id] resolves to no audit,
    the [HTTPException] with status 404 raised inside the [try] block is
    caught by [except Exception] and [generate_report] raises an
    [HTTPException] with status 500 instead. *)
Theorem generate_report_not_found_raises_500 request db :
  Sql.by_pk Audit.id request.(ReportGenerationRequest.audit_id) db.(audits) = None →
  generate_report request db
  = Raise (HTTPException 500
             ("Failed to generate report: " +:+ str_http 404 "Audit not found"))
  ∧ status_of (generate_report request db) = Some 500.
Proof.
  intros Hfind. unfold Ai.generate_report. rewrite Hfind. by simpl.
Qed.
End ai_endpoints.

(** ** Instances on the sample data *)

Section witnesses.
Import DatabaseQueries Exn Schemas.

Lemma update_audit_scores_submits_and_frames_witness :
  Sql.by_pk Audit.id 1 Sample.db.(audits) = Some Sample.audit1
  ∧ ∃ audit' db',
      update_audit_scores 1000 1 85 None (Some 90) None None None None Sample.db
      = (Some audit', db')
      ∧ Audit.status audit' = "submitted"
      ∧ Audit.submitted_at audit' = Some 1000
      ∧ Audit.cleanliness_score audit' = None
      ∧ Audit.compliance_zone audit' = Some "amber".
Proof.
  split; [reflexivity|].
  destruct (update_audit_scores_submits_and_frames 1000 1 85 None (Some 90) None
              None None None Sample.db Sample.audit1 eq_refl)
    as (audit' & db' & Hrun & _ & Hstatus & Hat & Hcs & _ & _ & Hcz & _).
  exists audit', db'.
  split; [exact Hrun|]. split; [exact Hstatus|]. split; [exact Hat|].
  split; [exact (Hcs eq_refl)|exact (Hcz eq_refl)].
Defined.

Lemma update_audit_scores_truthiness_witness :
  Sql.by_pk Audit.id 1 Sample.db.(audits) = Some Sample.audit1
  ∧ ∃ audit' db',
      update_audit_scores 1000 1 85 (Some 0) None None (Some "") (Some ∅) None
        Sample.db = (Some audit', db')
      ∧ Audit.compliance_zone audit' = Some "amber"
      ∧ Audit.findings audit' = None
      ∧ Audit.overall_score audit' = Some 85
      ∧ Audit.cleanliness_score audit' = Some 0.
Proof.
  split; [reflexivity|].
  destruct (update_audit_scores_truthiness 1000 1 85 (Some 0) None None (Some "")
              (Some ∅) None Sample.db Sample.audit1 eq_refl)
    as (audit' & db' & Hrun & _ & Hcz & Hf & _ & _ & _ & _ & Hov & _ & _ & Hcs & _).
  exists audit', db'.
  split; [exact Hrun|]. split; [exact (Hcz eq_refl)|]. split; [exact (Hf eq_refl)|].
  split; [exact Hov|exact (Hcs 0 eq_refl)].
Defined.

Lemma update_property_status_thresholds_witness :
  Sql.by_pk Property.id 5 Sample.db.(properties) = Some Sample.hotel
  ∧ ∃ property' db',
      update_property_status 1000 5 65 Sample.db = (Some property', db')
      ∧ Property.status property' = Some "amber"
      ∧ Property.last_audit_score property' = Some 65
      ∧ Property.next_audit_date property' = Some 7776000001000.
Proof.
  split; [reflexivity|].
  destruct (update_property_status_thresholds 1000 5 65 Sample.db Sample.hotel eq_refl)
    as (property' & db' & Hrun & _ & _ & Hamber & _ & Hscore & Hnext).
  exists property', db'.
  split; [exact Hrun|]. split; [|split; [exact Hscore|exact Hnext]].
  apply Hamber. split; [by intros [=]|reflexivity].
Defined.

Lemma update_not_found_returns_none_witness :
  Sql.by_pk Audit.id 9 Sample.db.(audits) = None
  ∧ assign_reviewer 1000 9 3 Sample.db = (Exn.Return None, Sample.db)
  ∧ update_user 7 [("name", PyStr "Bea")] Sample.db = (None, Sample.db).
Proof.
  destruct update_not_found_returns_none as (Huser & _ & _ & Hassign & _).
  split; [reflexivity|]. split.
  - apply Hassign. reflexivity.
  - apply Huser. reflexivity.
Defined.

Lemma analyze_photo_external_failure_witness :
  Ai.analyze_photo (float := Z) (analysis := unit)
    (λ status_code detail, detail)
    (λ _ _ _, Raise (OtherException "quota exceeded"))
    (λ _, Raise (OtherException "invalid"))
    (PhotoAnalysisRequest.mk "aGk=" "lobby" None)
  = Raise (HTTPException 500 "Failed to analyze photo: quota exceeded").
Proof.
  exact (proj1
           (analyze_photo_external_failure (float := Z) (analysis := unit)
              (λ status_code detail, detail)
              (λ _ _ _, Raise (OtherException "quota exceeded"))
              (λ _, Raise (OtherException "invalid"))
              (PhotoAnalysisRequest.mk "aGk=" "lobby" None)
              (OtherException "quota exceeded") eq_refl)).
Defined.

Lemma generate_report_not_found_raises_500_witness :
  Sql.by_pk Audit.id 9 Sample.db.(audits) = None
  ∧ status_of
      (Ai.generate_report (report := unit)
         (λ status_code detail, detail) (λ _, "1970-01-01T00:00:00")
         (λ _, Return ()) (λ _, Raise (OtherException "invalid"))
         (ReportGenerationRequest.mk 9) Sample.db)
    = Some 500.
Proof.
  split; [reflexivity|].
  exact (proj2
           (generate_report_not_found_raises_500 (report := unit)
              (λ status_code detail, detail) (λ _, "1970-01-01T00:00:00")
              (λ _, Return ()) (λ _, Raise (OtherException "invalid"))
              (ReportGenerationRequest.mk 9) Sample.db eq_refl)).
Defined.
End witnesses.

(** * Further properties *)

(** ** The AI endpoints: error mapping and report payload *)

Section ai_endpoints_more.
Import Exn Schemas.

Context {float analysis report suggestion : Type}.
Context (str_http : Z → string → string) (isoformat : Z → string).
Context (analyze_audit_photo : string → string → option Z → result analysis)
        (generate_audit_report : Ai.AuditData.t → result report)
        (suggest_audit_score : string → string → result suggestion)
        (PhotoAnalysisResponse_init : analysis → result (PhotoAnalysisResponse.t float))
        (ReportGenerationResponse_init : report → result ReportGenerationResponse.t)
        (ScoreSuggestionResponse_init :
           suggestion → result (ScoreSuggestionResponse.t float)).

Local Abbreviation analyze_photo :=
  (Ai.analyze_photo str_http analyze_audit_photo PhotoAnalysisResponse_init).
Local Abbreviation generate_report :=
  (Ai.generate_report str_http isoformat generate_audit_report
     ReportGenerationResponse_init).
Local Abbreviation suggest_score :=
  (Ai.suggest_score str_http suggest_audit_score ScoreSuggestionResponse_init).

Lemma try_except_500 {A} (body : result A) (prefix : string) e :
  try_except body (λ e, Raise (HTTPException 500 (prefix +:+ Ai.str str_http e)))
    = Raise e →
  ∃ cause, e = HTTPException 500 (prefix +:+ Ai.str str_http cause).
Proof. destruct body as [a|cause]; simpl; [done|]. intros [= <-]. by exists cause. Qed.

(** X1. Whatever the external service, the validation or the database do,
    the three AI endpoints raise nothing but an [HTTPException] with status
    500 whose detail is the endpoint's prefix followed by [str] of the
    exception caught; [suggest_score] included, which never looks its
    audit item up. *)
Theorem ai_endpoints_raise_only_500 :
  (∀ request e,
     analyze_photo request = Raise e →
     ∃ cause, e = HTTPException 500
                    ("Failed to analyze photo: " +:+ Ai.str str_http cause))
  ∧ (∀ request db e,
       generate_report request db = Raise e →
       ∃ cause, e = HTTPException 500
                      ("Failed to generate report: " +:+ Ai.str str_http cause))
  ∧ (∀ request e,
       suggest_score request = Raise e →
       ∃ cause, e = HTTPException 500
                      ("Failed to suggest score: " +:+ Ai.str str_http cause)).
Proof.
  split; [|split]; intros *; apply try_except_500.
Qed.

(** X2. For an audit that exists, [generate_report] sends the service a
    payload with the property's name and location ("Unknown" for both when
    the property row is missing), the audit's scores and zone, the type
    "Standard Audit", and one entry per item of the audit; it
    returns the validated report, and wraps a failure of the service in a
    500 whose detail carries the cause. *)
Theorem generate_report_found request db audit :
  Sql.by_pk Audit.id request.(ReportGenerationRequest.audit_id) db.(audits)
    = Some audit →
  ∃ audit_data,
    (∀ r response,
       generate_audit_report audit_data = Return r →
       ReportGenerationResponse_init r = Return response →
       generate_report request db = Return response)
    ∧ (∀ e,
         generate_audit_report audit_data = Raise e →
         generate_report request db
         = Raise (HTTPException 500
                    ("Failed to generate report: " +:+ Ai.str str_http e)))
    ∧ (Sql.by_pk Property.id (Audit.property_id audit) db.(properties) = None →
         Ai.AuditData.property_name audit_data = "Unknown"
         ∧ Ai.AuditData.location audit_data = "Unknown")
    ∧ (∀ property,
         Sql.by_pk Property.id (Audit.property_id audit) db.(properties)
           = Some property →
         Ai.AuditData.property_name audit_data = Property.name property
         ∧ Ai.AuditData.location audit_data = Property.location property)
    ∧ Ai.AuditData.audit_type audit_data = "Standard Audit"
    ∧ Ai.AuditData.audit_date audit_data = isoformat (Audit.created_at audit)
    ∧ Ai.AuditData.overall_score audit_data = Audit.overall_score audit
    ∧ Ai.AuditData.compliance_zone audit_data = Audit.compliance_zone audit
    ∧ Ai.AuditData.audit_items audit_data
      = (λ item, Ai.AuditData.Item.mk (AuditItem.section item)
                   (AuditItem.item_name item) (AuditItem.score item)
                   (AuditItem.comments item))
        <$> filter (λ item, AuditItem.audit_id item = Audit.id audit) db.(audit_items).
Proof.
  intros Hfind. unfold Ai.generate_report. rewrite Hfind.
  eexists. split; [|split; [|split; [|split]]].
  - intros r response Hr Hinit. simpl. by rewrite Hr; simpl; rewrite Hinit.
  - intros e He. simpl. by rewrite He.
  - unfold Ai.audit_property. by intros ->.
  - unfold Ai.audit_property. by intros property ->.
  - simpl. repeat split. f_equal. unfold Ai.audit_audit_items, Sql.where_.
    apply list_filter_iff. intros item. apply holds_eq.
Qed.
End ai_endpoints_more.

(** ** Authentication *)

Section auth.
Import Schemas.
Import Auth.

Context (verify_password : string → pyval → result bool)
        (create_access_token : pyval → Z → result string)
        (verify_token : string → result (option string))
        (ACCESS_TOKEN_EXPIRE_MINUTES : Z).

Local Abbreviation authenticate_user := (Auth.authenticate_user verify_password).
Local Abbreviation get_current_user := (Auth.get_current_user verify_token).
Local Abbreviation issue_token :=
  (Auth.issue_token create_access_token ACCESS_TOKEN_EXPIRE_MINUTES).
Local Abbreviation login_form :=
  (Auth.login_form verify_password create_access_token ACCESS_TOKEN_EXPIRE_MINUTES).
Local Abbreviation login_json :=
  (Auth.login_json verify_password create_access_token ACCESS_TOKEN_EXPIRE_MINUTES).
Local Abbreviation login_flexible :=
  (Auth.login_flexible verify_password create_access_token
     ACCESS_TOKEN_EXPIRE_MINUTES).

Lemma get_user_by_username_Some db username user :
  get_user_by_username db username = Some user →
  user ∈ db.(users) ∧ user !! "username" = Some (PyStr username).
Proof.
  unfold get_user_by_username, Sql.first, Sql.where_.
  intros Hhead%head_Some_elem_of. apply list_elem_of_filter in Hhead as [Hhold Hin].
  split; [done|]. unfold Sql.holds, Sql.eq in Hhold.
  destruct (user !! "username") as [v|]; simpl in *; [|done].
  injection Hhold as Hv. by apply bool_decide_eq_true in Hv as ->.
Qed.

Lemma authenticate_user_Some db username password user :
  authenticate_user db username password = Return (Some user)
  ↔ get_user_by_username db username = Some user
    ∧ verify_password password (getattr user "password") = Return true.
Proof.
  unfold Auth.authenticate_user.
  destruct (get_user_by_username db username) as [u|]; simpl.
  - destruct (verify_password password (getattr u "password")) as [[]|e] eqn:Hv;
      simpl; split.
    + intros [= <-]. by rewrite Hv.
    + by intros [[= <-] _].
    + done.
    + intros [[= <-] Hv']. rewrite Hv in Hv'. discriminate.
    + done.
    + intros [[= <-] Hv']. rewrite Hv in Hv'. discriminate.
  - split; [done|]. by intros [[=] _].
Qed.

(** X3. [authenticate_user] returns a user exactly when that user is the
    first row carrying the username and [verify_password] accepts the
    password against the row's stored hash; an unknown username gives the
    negative answer without calling [verify_password]. *)
Theorem authenticate_user_sound db username password :
  (∀ user,
     authenticate_user db username password = Return (Some user)
     ↔ get_user_by_username db username = Some user
       ∧ verify_password password (getattr user "password") = Return true)
  ∧ (get_user_by_username db username = None →
       authenticate_user db username password = Return None)
  ∧ (∀ user,
       authenticate_user db username password = Return (Some user) →
       user ∈ db.(users) ∧ user !! "username" = Some (PyStr username)).
Proof.
  split; [intros user; apply authenticate_user_Some|]. split.
  - unfold Auth.authenticate_user. by intros ->.
  - intros user [Hget _]%authenticate_user_Some.
    by apply get_user_by_username_Some.
Qed.

Lemma issue_token_Return user token :
  issue_token user = Return token →
  create_access_token (getattr user "username") ACCESS_TOKEN_EXPIRE_MINUTES
    = Return (Token.access_token token)
  ∧ Token.token_type token = "bearer".
Proof.
  unfold Auth.issue_token.
  destruct (create_access_token _ _) as [t|e]; simpl; [|done].
  by intros [= <-].
Qed.

Lemma login_form_Return db username password token :
  login_form username password db = Return token →
  ∃ user,
    get_user_by_username db username = Some user
    ∧ verify_password password (getattr user "password") = Return true
    ∧ create_access_token (getattr user "username") ACCESS_TOKEN_EXPIRE_MINUTES
      = Return (Token.access_token token)
    ∧ Token.token_type token = "bearer".
Proof.
  unfold Auth.login_form.
  destruct (authenticate_user db username password) as [[user|]|e] eqn:Hauth;
    simpl; [|done..].
  intros [Hcreate Htype]%issue_token_Return.
  apply authenticate_user_Some in Hauth as [Hget Hverify].
  by exists user.
Qed.

(** X4. [login_form] and [login_json] issue a token only for a user found
    by username whose password verified: the token is the one
    [create_access_token] makes for that user's username and the configured
    minutes, of type "bearer".  When authentication answers negatively both
    raise 401 "Incorrect username or password" with the bearer challenge. *)
Theorem login_issues_token_only_when_verified db username password :
  (∀ token,
     login_form username password db = Return token →
     ∃ user,
       get_user_by_username db username = Some user
       ∧ verify_password password (getattr user "password") = Return true
       ∧ create_access_token (getattr user "username") ACCESS_TOKEN_EXPIRE_MINUTES
         = Return (Token.access_token token)
       ∧ Token.token_type token = "bearer")
  ∧ (authenticate_user db username password = Return None →
       login_form username password db
       = Raise (HTTPException 401 "Incorrect username or password"
                  [("WWW-Authenticate", "Bearer")]))
  ∧ login_json (LoginRequest.mk username password) db
    = login_form username password db.
Proof.
  split; [intros token; apply login_form_Return|]. split.
  - unfold Auth.login_form. by intros ->.
  - done.
Qed.

(** X5. [get_current_user] returns a user only when [verify_token] yields a
    username and that user is the first row carrying it; a token that
    yields no username, or the username of no row, raises 401 "Could not
    validate credentials" with the bearer challenge. *)
Theorem get_current_user_outcomes token db :
  (∀ user,
     get_current_user token db = Return user
     ↔ ∃ username,
         verify_token token = Return (Some username)
         ∧ get_user_by_username db username = Some user)
  ∧ (verify_token token = Return None →
       get_current_user token db
       = Raise (HTTPException 401 "Could not validate credentials"
                  [("WWW-Authenticate", "Bearer")]))
  ∧ (∀ username,
       verify_token token = Return (Some username) →
       get_user_by_username db username = None →
       get_current_user token db
       = Raise (HTTPException 401 "Could not validate credentials"
                  [("WWW-Authenticate", "Bearer")])).
Proof.
  unfold Auth.get_current_user. split; [|split].
  - intros user. destruct (verify_token token) as [[username|]|e]; simpl.
    + destruct (get_user_by_username db username) as [u|] eqn:Hget; split.
      * intros [= <-]. by exists username.
      * intros (? & [= <-] & Hu). rewrite Hget in Hu. by injection Hu as ->.
      * done.
      * intros (? & [= <-] & Hu). rewrite Hget in Hu. discriminate.
    + split; [done|]. by intros (? & [=] & _).
    + split; [done|]. by intros (? & [=] & _).
  - by intros ->.
  - intros username Hv Hu. rewrite Hv. simpl. by rewrite Hu.
Qed.

Lemma login_flexible_tail db (username password : option string) :
  Truthy.of_str username = true → Truthy.of_str password = true →
  (if negb (Truthy.of_str username) || negb (Truthy.of_str password) then
     Raise (HTTPException 422 "Username and password are required" [])
   else
     bind (authenticate_user db (default "" username) (default "" password))
       (λ user,
          match user with
          | None => Raise incorrect_login
          | Some user => issue_token user
          end))
  = login_form (default "" username) (default "" password) db.
Proof. by intros -> ->. Qed.

Lemma login_flexible_Return request db token :
  login_flexible request db = Return token →
  ∃ username password, login_form username password db = Return token.
Proof.
  unfold Auth.login_flexible.
  match goal with
  | |- context [bind ?c _] =>
      lazymatch c with
      | (if _ then _ else _) => generalize c
      end
  end.
  intros [[username password]|e]; simpl; [|by destruct e].
  destruct (Truthy.of_str username) eqn:Hu, (Truthy.of_str password) eqn:Hp;
    simpl; try done.
  change (bind (authenticate_user db (default "" username) (default "" password)) _)
    with (login_form (default "" username) (default "" password) db).
  destruct (login_form _ _ db) as [t|[]] eqn:Hlogin; [|done..].
  intros [= <-]. eauto.
Qed.

(** X6. [login_flexible] never lets a non-HTTP exception out (it becomes a
    422).  With a JSON content type it answers 422 "Username and password
    are required" when either field is missing or empty, whatever the
    database holds, and otherwise what [login_json] answers for the two
    fields, with non-HTTP exceptions turned into 422; so a wrong password is
    a 401.  With an unknown content type and a body that is no JSON object
    it answers 422 "Invalid request format...".  A token is issued only for
    a user found by username whose password verified. *)
Theorem login_flexible_outcomes request db :
  (∀ e,
     login_flexible request db = Raise e →
     ∃ status_code detail headers, e = HTTPException status_code detail headers)
  ∧ (∀ body,
       contains "application/json" (default "" (Request.content_type request)) = true →
       Request.json request = Return body →
       Truthy.of_str (body !! "username") = false
       ∨ Truthy.of_str (body !! "password") = false →
       login_flexible request db
       = Raise (HTTPException 422 "Username and password are required" []))
  ∧ (∀ body username password,
       contains "application/json" (default "" (Request.content_type request)) = true →
       Request.json request = Return body →
       body !! "username" = Some username → username ≠ "" →
       body !! "password" = Some password → password ≠ "" →
       login_flexible request db
       = Stated.flexible_outcome (login_json (LoginRequest.mk username password) db))
  ∧ (∀ e,
       contains "application/json" (default "" (Request.content_type request)) = false →
       contains "application/x-www-form-urlencoded"
         (default "" (Request.content_type request)) = false →
       contains "multipart/form-data" (default "" (Request.content_type request))
         = false →
       Request.json request = Raise e →
       login_flexible request db
       = Raise (HTTPException 422
                  "Invalid request format. Expected JSON or form data." []))
  ∧ (∀ token,
       login_flexible request db = Return token →
       ∃ username password user,
         get_user_by_username db username = Some user
         ∧ verify_password password (getattr user "password") = Return true
         ∧ create_access_token (getattr user "username") ACCESS_TOKEN_EXPIRE_MINUTES
           = Return (Token.access_token token)
         ∧ Token.token_type token = "bearer").
Proof.
  split; [|split; [|split; [|split]]].
  - intros e. unfold Auth.login_flexible.
    match goal with |- context [match ?b with _ => _ end = _] => destruct b as [t|[]] end;
      [done| |]; intros [= <-]; eauto.
  - intros body Hct Hjson Hblank. unfold Auth.login_flexible.
    rewrite Hct, Hjson. simpl. unfold Auth.credentials.
    by destruct Hblank as [-> | ->]; simpl; rewrite ?orb_true_r.
  - intros body username password Hct Hjson Hu Hune Hp Hpne.
    unfold Auth.login_flexible. rewrite Hct, Hjson. simpl.
    unfold Auth.credentials. rewrite Hu, Hp.
    rewrite login_flexible_tail
      by (simpl; by apply bool_decide_eq_true_2).
    simpl. change (Auth.login_json verify_password create_access_token
                     ACCESS_TOKEN_EXPIRE_MINUTES (LoginRequest.mk username password) db)
      with (login_form username password db).
    by destruct (login_form username password db) as [t|[]].
  - intros e Hjson Hform1 Hform2 Hraise. unfold Auth.login_flexible.
    rewrite Hjson, Hform1, Hform2, Hraise. done.
  - intros token (username & password & Hlogin)%login_flexible_Return.
    exists username, password. by apply login_form_Return.
Qed.
End auth.

(** ** The schedule sweep and the properties due for an audit *)

#[global] Instance asc_total : Total Order.asc.
Proof. intros x y. unfold Order.asc. lia. Qed.
#[global] Instance asc_trans : Transitive Order.asc.
Proof. intros x y z. unfold Order.asc. lia. Qed.
#[global] Instance desc_nullsfirst_total : Total Order.desc_nullsfirst.
Proof. intros [x|] [y|]; simpl; auto. lia. Qed.
#[global] Instance desc_nullsfirst_trans : Transitive Order.desc_nullsfirst.
Proof. intros [x|] [y|] [z|]; simpl; try done. lia. Qed.

Section schedule.
Import DatabaseQueries.

Lemma midnight_date_le now : Datetime.midnight (Datetime.date now) ≤ now.
Proof.
  unfold Datetime.midnight, Datetime.date, Datetime.microseconds_per_day.
  rewrite Z.mul_comm. apply Z.mul_div_le. lia.
Qed.

Lemma holds_overdue today p :
  Sql.holds (Sql.lt (Property.next_audit_date p) (Datetime.midnight today))
  ↔ Stated.overdue today p.
Proof.
  unfold Sql.holds, Sql.lt, Stated.overdue.
  destruct (Property.next_audit_date p) as [ts|]; simpl; [|done].
  rewrite <- date_lt_midnight. case_bool_decide; split; (done || by intros [=]).
Qed.

(** A date at least 90 days after a reading of the clock is not before the
    day of an earlier reading. *)
Lemma not_overdue_after today now p :
  Datetime.midnight today ≤ now →
  Property.next_audit_date p = Some (now + Datetime.timedelta_days 90) →
  ¬ Stated.needing_audit today p.
Proof.
  intros Hnow Hp. unfold Stated.needing_audit. rewrite Hp.
  rewrite <- date_lt_midnight.
  unfold Datetime.timedelta_days, Datetime.microseconds_per_day. lia.
Qed.

Lemma set_next_audit_date_get v p :
  Property.next_audit_date (Property.set_next_audit_date v p) = v.
Proof. by destruct p. Qed.

Lemma filter_fmap_fix {A} (P Q : A → Prop) `{∀ x, Decision (P x)}
    `{∀ x, Decision (Q x)} (f : A → A) (l : list A) :
  (∀ x, P (f x) ↔ Q x) → (∀ x, Q x → f x = x) →
  filter P (f <$> l) = filter Q l.
Proof.
  intros HPQ Hfix. induction l as [|x l IH]; [done|].
  rewrite fmap_cons, !filter_cons, IH.
  destruct (decide (Q x)) as [Hq|Hq].
  - rewrite decide_True by by apply HPQ. by rewrite Hfix.
  - rewrite decide_False; [done|]. by rewrite HPQ.
Qed.

(** X7. After [update_property_audit_schedules], on the same day, the only
    properties still due for an audit are those never scheduled (null
    [next_audit_date]); the count returned is the number of properties that
    were overdue; properties that were not overdue are untouched, the other
    tables too; a second sweep that day updates nothing. *)
Theorem update_property_audit_schedules_clears_overdue now now' db :
  now ≤ now' →
  let updated := (update_property_audit_schedules now now' db).1 in
  let db' := (update_property_audit_schedules now now' db).2 in
  updated
  = Z.of_nat (length (filter (Stated.overdue (Datetime.date now)) db.(properties)))
  ∧ (∀ now2,
       Datetime.date now2 = Datetime.date now →
       get_properties_needing_audit now2 db'
       ≡ₚ filter (λ p, Property.next_audit_date p = None) db.(properties))
  ∧ (∀ (i : nat) p,
       db.(properties) !! i = Some p → ¬ Stated.overdue (Datetime.date now) p →
       db'.(properties) !! i = Some p)
  ∧ (∀ (i : nat) p,
       db.(properties) !! i = Some p → Stated.overdue (Datetime.date now) p →
       db'.(properties) !! i
       = Some (Property.set_next_audit_date (Some (now' + 90 * 86400000000)) p))
  ∧ (∀ now2 now2',
       Datetime.date now2 = Datetime.date now →
       (update_property_audit_schedules now2 now2' db').1 = 0)
  ∧ db'.(users) = db.(users)
  ∧ db'.(audits) = db.(audits)
  ∧ db'.(audit_items) = db.(audit_items).
Proof.
  intros Hclock updated db'.
  set (today := Datetime.date now).
  set (sweep := λ p : Property.t,
         if decide (Sql.holds (Sql.lt (Property.next_audit_date p)
                                 (Datetime.midnight today)))
         then Property.set_next_audit_date
                (Some (now' + Datetime.timedelta_days 90)) p
         else p).
  assert (Hrows : db'.(properties) = sweep <$> db.(properties)) by done.
  assert (Hsweep : ∀ p, Stated.needing_audit today (sweep p)
                        ↔ Property.next_audit_date p = None).
  { intros p. unfold sweep. case_decide as Hp.
    - apply holds_overdue in Hp. split.
      + intros Hneed. exfalso. revert Hneed.
        apply (not_overdue_after today now'); [|apply set_next_audit_date_get].
        pose proof (midnight_date_le now). unfold today. lia.
      + intros Hnone. unfold Stated.overdue in Hp. by rewrite Hnone in Hp.
    - rewrite holds_overdue in Hp. unfold Stated.overdue in Hp.
      unfold Stated.needing_audit.
      destruct (Property.next_audit_date p) as [ts|]; [|done].
      split; [by intros ?|done]. }
  assert (Hfix : ∀ p, Property.next_audit_date p = None → sweep p = p).
  { intros p Hp. unfold sweep. rewrite decide_False; [done|].
    rewrite holds_overdue. unfold Stated.overdue. rewrite Hp. by intros []. }
  split; [|split; [|split; [|split; [|split]]]].
  - unfold updated, update_property_audit_schedules, Sql.update, Sql.where_. simpl.
    do 2 f_equal. apply list_filter_iff. intros p. apply holds_overdue.
  - intros now2 Hday. unfold get_properties_needing_audit.
    rewrite order_by_perm, Hday, Hrows. fold today.
    unfold Sql.where_. erewrite list_filter_iff by apply needs_audit_stated.
    by rewrite (filter_fmap_fix _ (λ p, Property.next_audit_date p = None)).
  - intros i p Hi Hp. rewrite Hrows, list_lookup_fmap, Hi. simpl.
    unfold sweep. rewrite decide_False; [done|]. by rewrite holds_overdue.
  - intros i p Hi Hp. rewrite Hrows, list_lookup_fmap, Hi. simpl.
    unfold sweep. rewrite decide_True; [done|]. by rewrite holds_overdue.
  - intros now2 now2' Hday.
    unfold update_property_audit_schedules, Sql.update, Sql.where_. simpl.
    rewrite Hday. fold today. fold sweep. fold (sweep <$> db.(properties)).
    erewrite list_filter_iff by apply holds_overdue.
    assert (Hnone : ∀ p, ¬ Stated.overdue today (sweep p)).
    { intros p Hover.
      assert (Hneed : Stated.needing_audit today (sweep p)).
      { unfold Stated.overdue, Stated.needing_audit in *.
        by destruct (Property.next_audit_date (sweep p)). }
      apply Hsweep in Hneed. rewrite (Hfix p Hneed) in Hover.
      unfold Stated.overdue in Hover. by rewrite Hneed in Hover. }
    assert (Hempty : ∀ l : list Property.t,
              filter (Stated.overdue today) (sweep <$> l) = []).
    { induction l as [|p l IH]; [done|].
      by rewrite fmap_cons, filter_cons_False by apply Hnone. }
    by rewrite Hempty.
  - done.
Qed.

Lemma flush_elem_of {A} (pk : A → Z) k obj rows r :
  r ∈ Sql.flush pk k obj rows → r = obj ∨ (r ∈ rows ∧ pk r ≠ k).
Proof.
  unfold Sql.flush. intros (r0 & -> & Hr0)%list_elem_of_fmap.
  case_decide; [by left|by right].
Qed.

(** X8. A property that has just been scored by [update_property_status] is
    not reported by [get_properties_needing_audit] at any time up to 90
    days after the update; the update leaves the property's identity
    (id, name, location, region, image, creation time) and every other
    property row as they were. *)
Theorem update_property_status_clears_due now property_id score db property :
  Sql.by_pk Property.id property_id db.(properties) = Some property →
  let db' := (update_property_status now property_id score db).2 in
  (∀ now2 p,
     now2 ≤ now + 90 * 86400000000 →
     p ∈ get_properties_needing_audit now2 db' → Property.id p ≠ property_id)
  ∧ (∀ property',
       Sql.by_pk Property.id property_id db'.(properties) = Some property' →
       Property.id property' = Property.id property
       ∧ Property.name property' = Property.name property
       ∧ Property.location property' = Property.location property
       ∧ Property.region property' = Property.region property
       ∧ Property.image property' = Property.image property
       ∧ Property.created_at property' = Property.created_at property)
  ∧ (∀ (i : nat) other,
       db.(properties) !! i = Some other → Property.id other ≠ property_id →
       db'.(properties) !! i = Some other)
  ∧ db'.(users) = db.(users)
  ∧ db'.(audits) = db.(audits)
  ∧ db'.(audit_items) = db.(audit_items).
Proof.
  intros Hfind db'.
  pose proof (by_pk_Some _ _ _ _ Hfind) as [_ Hid].
  unfold db', update_property_status. rewrite Hfind. simpl.
  match goal with
  | |- context [Sql.flush Property.id property_id ?obj _] => set (property' := obj)
  end.
  assert (Hid' : Property.id property' = property_id).
  { unfold property'. destruct property; simpl in *. by repeat case_decide. }
  assert (Hnext : Property.next_audit_date property'
                  = Some (now + Datetime.timedelta_days 90)).
  { unfold property'. by destruct property; repeat case_decide. }
  split; [|split; [|split]].
  - intros now2 p Hnow2 Hp Hpid.
    unfold get_properties_needing_audit in Hp.
    rewrite order_by_elem_of in Hp. unfold Sql.where_ in Hp.
    apply list_elem_of_filter in Hp as [Hneed Hin].
    apply needs_audit_stated in Hneed.
    apply flush_elem_of in Hin as [-> | [_ Hne]]; [|done].
    revert Hneed. unfold Stated.needing_audit. rewrite Hnext.
    rewrite <- date_lt_midnight. pose proof (midnight_date_le now2).
    unfold Datetime.timedelta_days, Datetime.microseconds_per_day. lia.
  - intros p'. rewrite by_pk_flush by done. rewrite Hfind. simpl. intros [= <-].
    unfold property'. by destruct property; repeat case_decide.
  - intros i other Hi Hne. by apply flush_lookup_other.
  - done.
Qed.
End schedule.

(** ** The audit listings *)

Section listings.
Import DatabaseQueries.

Lemma filter_nothing {A} (P : A → Prop) `{∀ x, Decision (P x)} (l : list A) :
  (∀ x, x ∈ l → ¬ P x) → filter P l = [].
Proof.
  induction l as [|x l IH]; intros Hnone; [done|].
  rewrite filter_cons_False by (apply Hnone; left).
  apply IH. intros ??. apply Hnone. by right.
Qed.

Lemma holds_eq_nullable {A} `{EqDecision A} (x : option A) (y : A) :
  Sql.holds (Sql.eq x y) ↔ x = Some y.
Proof.
  unfold Sql.holds, Sql.eq. destruct x as [v|]; simpl; [|done].
  case_bool_decide; split.
  - intros _. by subst.
  - done.
  - done.
  - by intros [= ->].
Qed.

Lemma holds_eq_value {A} `{EqDecision A} (x y : A) :
  Sql.holds (Sql.eq (Some x) y) ↔ x = y.
Proof. rewrite holds_eq_nullable. split; [by intros [= ->]|by intros ->]. Qed.

(** X11. Without criteria [build_audit_filter_query] is the query of
    [get_all_audits_with_details]; with any criteria its result is drawn
    from that listing, no audit more often than it is stored. *)
Theorem build_audit_filter_query_within_all :
  (∀ db,
     QueryBuilder.build_audit_filter_query None None None None None None None None db
     = get_all_audits_with_details db)
  ∧ (∀ property_ids auditor_ids status_list date_from date_to score_min score_max
       compliance_zones db,
       QueryBuilder.build_audit_filter_query property_ids auditor_ids status_list
         date_from date_to score_min score_max compliance_zones db
       ⊆+ get_all_audits_with_details db)
  ∧ (∀ db, get_all_audits_with_details db ≡ₚ db.(audits)).
Proof.
  split; [done|]. split.
  - intros. rewrite build_audit_filter_query_unfold.
    unfold get_all_audits_with_details. rewrite !order_by_perm.
    apply sublist_submseteq, sublist_filter.
  - intros db. apply order_by_perm.
Qed.

(** X12. [get_audits_by_auditor] returns, each once, the audits assigned to
    the auditor, restricted to the statuses of [status_list] when that list
    is given and not empty; an empty list restricts nothing, like no list;
    the result is in ascending order of [created_at]. *)
Theorem get_audits_by_auditor_exact_sorted auditor_id status_list db :
  let result := get_audits_by_auditor auditor_id status_list db in
  result
  ≡ₚ filter (λ a, Audit.auditor_id a = Some auditor_id
                  ∧ Stated.member_nonempty status_list (Some (Audit.status a)))
       db.(audits)
  ∧ (∀ a, a ∈ result ↔
          a ∈ db.(audits) ∧ Audit.auditor_id a = Some auditor_id
          ∧ ∀ statuses, status_list = Some statuses → statuses ≠ [] →
                        Audit.status a ∈ statuses)
  ∧ get_audits_by_auditor auditor_id (Some []) db
    = get_audits_by_auditor auditor_id None db
  ∧ (∀ (i j : nat) a b,
       (i < j)%nat → result !! i = Some a → result !! j = Some b →
       Audit.created_at a ≤ Audit.created_at b).
Proof.
  intros result.
  assert (Hperm : result
            ≡ₚ filter (λ a, Audit.auditor_id a = Some auditor_id
                            ∧ Stated.member_nonempty status_list (Some (Audit.status a)))
                 db.(audits)).
  { unfold result, get_audits_by_auditor. rewrite order_by_perm.
    rewrite (in_step status_list (λ a, Some (Audit.status a))).
    unfold Sql.where_. rewrite list_filter_filter.
    erewrite list_filter_iff; [done|]. intros a. simpl.
    rewrite holds_eq_nullable. tauto. }
  split; [done|]. split; [|split].
  - intros a. rewrite Hperm, list_elem_of_filter.
    destruct status_list as [[|s l]|]; simpl; split.
    + intros [[? _] ?]. repeat split; [done..|]. by intros ? [= <-] [].
    + by intros (? & ? & _).
    + intros [[? ?] ?]. repeat split; [done..|]. by intros ? [= <-] _.
    + intros (? & ? & Hin). repeat split; [done| |done]. by apply Hin.
    + intros [[? _] ?]. repeat split; [done..|]. by intros ? [=].
    + by intros (? & ? & _).
  - done.
  - intros i j a b Hij Hi Hj.
    change (Order.by_ Audit.created_at Order.asc a b).
    eapply sorted_lookup; [|exact Hij|exact Hi|exact Hj].
    apply order_by_sorted; apply _.
Qed.

(** X13. [get_audits_by_status] returns, each once, exactly the audits in
    the given status, in ascending order of [created_at]; they are the
    audits [build_audit_filter_query] selects for that single status. *)
Theorem get_audits_by_status_exact_sorted status db :
  let result := get_audits_by_status status db in
  result ≡ₚ filter (λ a, Audit.status a = status) db.(audits)
  ∧ result
    ≡ₚ QueryBuilder.build_audit_filter_query None None (Some [status]) None None
         None None None db
  ∧ (∀ (i j : nat) a b,
       (i < j)%nat → result !! i = Some a → result !! j = Some b →
       Audit.created_at a ≤ Audit.created_at b).
Proof.
  intros result.
  assert (Hperm : result ≡ₚ filter (λ a, Audit.status a = status) db.(audits)).
  { unfold result, get_audits_by_status. rewrite order_by_perm.
    unfold Sql.where_. erewrite list_filter_iff; [done|].
    intros a. apply holds_eq_value. }
  split; [done|]. split.
  - rewrite Hperm, build_audit_filter_query_unfold, order_by_perm.
    erewrite list_filter_iff; [done|]. intros a.
    unfold Stated.selected_nonempty, Stated.conjunction. simpl.
    rewrite elem_of_cons, elem_of_nil.
    destruct (Audit.auditor_id a), (Audit.overall_score a),
      (Audit.compliance_zone a); tauto.
  - intros i j a b Hij Hi Hj.
    change (Order.by_ Audit.created_at Order.asc a b).
    eapply sorted_lookup; [|exact Hij|exact Hi|exact Hj].
    apply order_by_sorted; apply _.
Qed.

(** X14. [get_properties_by_region] returns, each once, exactly the
    properties of the region; among the scored ones a property never comes
    before one with a higher [last_audit_score]. *)
Theorem get_properties_by_region_exact_sorted region db :
  let result := get_properties_by_region region db in
  result ≡ₚ filter (λ p, Property.region p = region) db.(properties)
  ∧ (∀ (i j : nat) p q a b,
       (i < j)%nat → result !! i = Some p → result !! j = Some q →
       Property.last_audit_score p = Some a →
       Property.last_audit_score q = Some b →
       b ≤ a).
Proof.
  intros result. split.
  - unfold result, get_properties_by_region. rewrite order_by_perm.
    unfold Sql.where_. erewrite list_filter_iff; [done|].
    intros p. apply holds_eq_value.
  - intros i j p q a b Hij Hi Hj Ha Hb.
    assert (Hpq : Order.by_ Property.last_audit_score Order.desc_nullsfirst p q).
    { eapply sorted_lookup; [|exact Hij|exact Hi|exact Hj].
      apply order_by_sorted; apply _. }
    unfold Order.by_ in Hpq. by rewrite Ha, Hb in Hpq.
Qed.

(** X22. [build_audit_filter_query] answers contradictory bounds with an
    empty result rather than an error, and a null column never satisfies a
    criterion: an unscored audit is dropped as soon as a score bound is
    given, an unassigned one as soon as auditors are listed. *)
Theorem build_audit_filter_query_bounds_and_nulls :
  (∀ property_ids auditor_ids status_list score_min score_max compliance_zones db
     date_from date_to,
     date_to < date_from →
     QueryBuilder.build_audit_filter_query property_ids auditor_ids status_list
       (Some date_from) (Some date_to) score_min score_max compliance_zones db = [])
  ∧ (∀ property_ids auditor_ids status_list date_from date_to compliance_zones db
       score_min score_max,
       score_max < score_min →
       QueryBuilder.build_audit_filter_query property_ids auditor_ids status_list
         date_from date_to (Some score_min) (Some score_max) compliance_zones db = [])
  ∧ (∀ property_ids auditor_ids status_list date_from date_to score_min score_max
       compliance_zones db a,
       a ∈ QueryBuilder.build_audit_filter_query property_ids auditor_ids status_list
             date_from date_to score_min score_max compliance_zones db →
       (score_min ≠ None ∨ score_max ≠ None → Audit.overall_score a ≠ None)
       ∧ (∀ x xs, auditor_ids = Some (x :: xs) → Audit.auditor_id a ≠ None)).
Proof.
  split; [|split].
  - intros * Hdates. rewrite build_audit_filter_query_unfold, filter_nothing; [done|].
    intros a _ (_ & _ & _ & Hfrom & Hto & _). simpl in *. lia.
  - intros * Hscores. rewrite build_audit_filter_query_unfold, filter_nothing; [done|].
    intros a _ (_ & _ & _ & _ & _ & Hmin & Hmax & _).
    destruct (Audit.overall_score a); simpl in *; [lia|done].
  - intros *. rewrite build_audit_filter_query_unfold, order_by_elem_of.
    intros [(_ & Hauditor & _ & _ & _ & Hmin & Hmax & _) _]%list_elem_of_filter.
    split.
    + intros Hbound Hnull. rewrite Hnull in Hmin, Hmax.
      destruct score_min, score_max; simpl in *; try done. by destruct Hbound.
    + intros x xs -> Hnull. by rewrite Hnull in Hauditor.
Qed.
End listings.

(** ** Review, AI report and AI item updates *)

Section workflow.
Import DatabaseQueries.

Lemma reviewer_exists_spec reviewer_id db :
  reviewer_exists reviewer_id db
  ↔ ∃ u : User, u ∈ db.(users) ∧ u !! "id" = Some (PyInt reviewer_id).
Proof. unfold reviewer_exists. apply Exists_exists. Qed.

Lemma assign_reviewer_found now audit_id reviewer_id db audit :
  Sql.by_pk Audit.id audit_id db.(audits) = Some audit →
  reviewer_exists reviewer_id db →
  let audit' :=
    Audit.set_reviewed_at (Some now)
      (Audit.set_status "reviewed" (Audit.set_reviewer_id (Some reviewer_id) audit)) in
  assign_reviewer now audit_id reviewer_id db
  = (Exn.Return (Some audit'),
     with_audits (Sql.flush Audit.id audit_id audit' db.(audits)) db)
  ∧ Sql.by_pk Audit.id audit_id (Sql.flush Audit.id audit_id audit' db.(audits))
    = Some audit'.
Proof.
  intros Hfind Hreviewer audit'. unfold assign_reviewer.
  rewrite Hfind, decide_True by done. split; [done|].
  apply by_pk_Some in Hfind as Hid. destruct Hid as [_ Hid].
  rewrite by_pk_flush by by destruct audit. by rewrite Hfind.
Qed.


(** X16. Submitting the scores of an audit and then assigning a reviewer
    who is a stored user leaves the audit "reviewed" with the submitted
    overall score, the submission time and the review time all stored. *)
Theorem submit_then_review t1 t2 audit_id overall_score reviewer_id db audit :
  Sql.by_pk Audit.id audit_id db.(audits) = Some audit →
  (∃ u : User, u ∈ db.(users) ∧ u !! "id" = Some (PyInt reviewer_id)) →
  let db1 :=
    (update_audit_scores t1 audit_id overall_score None None None None None None db).2 in
  ∃ audit2 db2,
    assign_reviewer t2 audit_id reviewer_id db1 = (Exn.Return (Some audit2), db2)
    ∧ Sql.by_pk Audit.id audit_id db2.(audits) = Some audit2
    ∧ Audit.status audit2 = "reviewed"
    ∧ Audit.overall_score audit2 = Some overall_score
    ∧ Audit.submitted_at audit2 = Some t1
    ∧ Audit.reviewed_at audit2 = Some t2
    ∧ Audit.reviewer_id audit2 = Some reviewer_id
    ∧ Audit.compliance_zone audit2 = Audit.compliance_zone audit
    ∧ length db2.(audits) = length db.(audits).
Proof.
  intros Hfind Hreviewer db1.
  destruct (update_audit_scores_found t1 audit_id overall_score None None None None
              None None db audit Hfind) as (audit1 & Hrun1 & Hid1 & Heq1).
  assert (Hfind1 : Sql.by_pk Audit.id audit_id db1.(audits) = Some audit1).
  { unfold db1. rewrite Hrun1. simpl. rewrite by_pk_flush by done. by rewrite Hfind. }
  assert (Hreviewer1 : reviewer_exists reviewer_id db1).
  { apply reviewer_exists_spec. unfold db1. rewrite Hrun1. exact Hreviewer. }
  destruct (assign_reviewer_found t2 audit_id reviewer_id db1 audit1 Hfind1 Hreviewer1)
    as [Hrun2 Hstored2].
  eexists _, _. split; [exact Hrun2|]. split; [exact Hstored2|].
  rewrite Heq1. simpl. repeat split.
  unfold Sql.flush. rewrite length_fmap. unfold db1. rewrite Hrun1. simpl.
  unfold Sql.flush. by rewrite length_fmap.
Qed.

(** X17. For an existing audit item, [update_audit_item_with_ai] always
    stores the AI analysis and the AI-suggested score; it stores [score]
    whenever it is not [None], zero included, and [comments] only when it is
    a non-empty string; the item's identity and its other fields are
    untouched. *)
Theorem update_audit_item_with_ai_truthiness item_id ai_analysis ai_suggested_score
    score comments db item :
  Sql.by_pk AuditItem.id item_id db.(audit_items) = Some item →
  ∃ item' db',
    update_audit_item_with_ai item_id ai_analysis ai_suggested_score score comments db
    = (Some item', db')
    ∧ Sql.by_pk AuditItem.id item_id db'.(audit_items) = Some item'
    ∧ AuditItem.ai_analysis item' = Some ai_analysis
    ∧ AuditItem.ai_suggested_score item' = Some ai_suggested_score
    ∧ (∀ v, score = Some v → AuditItem.score item' = Some v)
    ∧ (score = None → AuditItem.score item' = AuditItem.score item)
    ∧ (∀ c, comments = Some c → c ≠ "" → AuditItem.comments item' = Some c)
    ∧ (comments = None ∨ comments = Some "" →
         AuditItem.comments item' = AuditItem.comments item)
    ∧ AuditItem.id item' = AuditItem.id item
    ∧ AuditItem.audit_id item' = AuditItem.audit_id item
    ∧ AuditItem.section item' = AuditItem.section item
    ∧ AuditItem.item_name item' = AuditItem.item_name item
    ∧ AuditItem.category item' = AuditItem.category item
    ∧ AuditItem.item item' = AuditItem.item item
    ∧ AuditItem.created_at item' = AuditItem.created_at item
    ∧ db'.(audits) = db.(audits).
Proof.
  intros Hfind. unfold update_audit_item_with_ai. rewrite Hfind.
  pose proof (by_pk_Some _ _ _ _ Hfind) as [_ Hid].
  eexists _, _. split; [reflexivity|].
  destruct item; simpl in *. split.
  { rewrite by_pk_flush by (repeat case_decide; by repeat case_match).
    by rewrite Hfind. }
  assert (Hcomments : ∀ c, c ≠ "" → Truthy.of_str (Some c) = true).
  { intros c Hc. simpl. by rewrite bool_decide_eq_true_2. }
  destruct score as [v|], (Truthy.of_str comments) eqn:Htruthy; simpl;
    repeat split; try done.
  all: try (by intros ? [= <-]).
  all: try (intros c -> Hc; by rewrite Hcomments in Htruthy).
  all: try (by intros [-> | ->]).
Qed.

(** X18. For an existing audit, [update_audit_with_ai_report] stores the
    report and the insights and changes nothing else of the audit; the
    audit is then listed by [get_audits_with_ai_analysis], which never lists
    an audit without a report. *)
Theorem update_audit_with_ai_report_is_listed audit_id ai_report ai_insights db audit :
  Sql.by_pk Audit.id audit_id db.(audits) = Some audit →
  ∃ audit' db',
    update_audit_with_ai_report audit_id ai_report ai_insights db = (Some audit', db')
    ∧ Sql.by_pk Audit.id audit_id db'.(audits) = Some audit'
    ∧ audit' = Audit.set_ai_insights (Some ai_insights)
                 (Audit.set_ai_report (Some ai_report) audit)
    ∧ Audit.ai_report audit' = Some ai_report
    ∧ Audit.ai_insights audit' = Some ai_insights
    ∧ Audit.status audit' = Audit.status audit
    ∧ Audit.overall_score audit' = Audit.overall_score audit
    ∧ audit' ∈ get_audits_with_ai_analysis db'
    ∧ (∀ a, a ∈ get_audits_with_ai_analysis db' → Audit.ai_report a ≠ None)
    ∧ (∀ a, a ∈ get_audits_with_ai_analysis db →
            Audit.id a ≠ audit_id → a ∈ get_audits_with_ai_analysis db').
Proof.
  intros Hfind. unfold update_audit_with_ai_report. rewrite Hfind.
  pose proof (by_pk_Some _ _ _ _ Hfind) as [Hin Hid].
  set (audit' := Audit.set_ai_insights (Some ai_insights)
                   (Audit.set_ai_report (Some ai_report) audit)).
  assert (Hid' : Audit.id audit' = audit_id) by by destruct audit.
  assert (Hlisted : ∀ d a, a ∈ get_audits_with_ai_analysis d
                           ↔ a ∈ d.(audits) ∧ Audit.ai_report a ≠ None).
  { intros d a. unfold get_audits_with_ai_analysis.
    rewrite order_by_elem_of. unfold Sql.where_. rewrite list_elem_of_filter.
    unfold Sql.holds, Sql.is_not_null. destruct (Audit.ai_report a); split.
    - by intros [_ ?].
    - by intros [? _].
    - by intros [[=] _].
    - by intros [_ []]. }
  exists audit', (with_audits (Sql.flush Audit.id audit_id audit' db.(audits)) db).
  split; [done|]. split.
  { simpl. rewrite by_pk_flush by done. by rewrite Hfind. }
  split; [done|]. split; [by destruct audit|]. split; [by destruct audit|].
  split; [by destruct audit|]. split; [by destruct audit|].
  split; [|split].
  - apply Hlisted. split; [|by destruct audit]. simpl.
    apply list_elem_of_lookup_1 in Hin as [i Hi].
    apply (list_elem_of_lookup_2 _ i). unfold Sql.flush.
    rewrite list_lookup_fmap, Hi. simpl. by rewrite decide_True.
  - intros a [_ ?]%Hlisted. done.
  - intros a [Ha Hrep]%Hlisted Hne. apply Hlisted. split; [|done]. simpl.
    apply list_elem_of_lookup_1 in Ha as [i Hi].
    apply (list_elem_of_lookup_2 _ i). by apply flush_lookup_other.
Qed.
End workflow.

(** ** The latest audit of each property *)

Section latest.
Import DatabaseQueries.

Lemma foldr_max_spec (y : Z) (ys : list Z) :
  foldr Z.max y ys ∈ y :: ys ∧ ∀ z, z ∈ y :: ys → z ≤ foldr Z.max y ys.
Proof.
  induction ys as [|x ys [IHin IHle]]; simpl.
  - split; [left|]. by intros z ->%list_elem_of_singleton.
  - split.
    + destruct (Z.max_spec x (foldr Z.max y ys)) as [[_ ->]|[_ ->]].
      * apply elem_of_cons in IHin as [->|?]; [left|by do 2 right].
      * right; left.
    + intros z [->|[->|Hz]%elem_of_cons]%elem_of_cons.
      * specialize (IHle y ltac:(left)). lia.
      * lia.
      * specialize (IHle z ltac:(by right)). lia.
Qed.

(** The rows of the subquery: a property with audits, and the greatest id
    among them. *)
Lemma latest_audit_subq_elem db pid m :
  (pid, m) ∈ latest_audit_subq db
  ↔ (∃ a, a ∈ db.(audits) ∧ Audit.property_id a = pid ∧ Audit.id a = m)
    ∧ (∀ a, a ∈ db.(audits) → Audit.property_id a = pid → Audit.id a ≤ m).
Proof.
  unfold latest_audit_subq. rewrite list_elem_of_omap.
  assert (Hgroup : ∀ z, z ∈ Audit.id <$> filter (λ a, Audit.property_id a = pid)
                                         db.(audits)
                        ↔ ∃ a, a ∈ db.(audits) ∧ Audit.property_id a = pid
                               ∧ Audit.id a = z).
  { intros z. rewrite list_elem_of_fmap. split.
    - intros (a & -> & [? ?]%list_elem_of_filter). by exists a.
    - intros (a & ? & ? & <-). exists a. split; [done|].
      by apply list_elem_of_filter. }
  split.
  - intros (x & Hx & Hf).
    destruct (Audit.id <$> filter (λ a, Audit.property_id a = x) db.(audits))
      as [|y ys] eqn:Hg; [done|].
    injection Hf as -> <-. rewrite Hg in Hgroup.
    destruct (foldr_max_spec y ys) as [Hin Hle]. split.
    + by apply Hgroup.
    + intros a Ha Hp. apply Hle, Hgroup. by exists a.
  - intros [(a & Ha & Hp & Hm) Hle]. exists pid. split.
    + rewrite elem_of_remove_dups, list_elem_of_fmap. by exists a.
    + destruct (Audit.id <$> filter (λ a, Audit.property_id a = pid) db.(audits))
        as [|y ys] eqn:Hg.
      * exfalso. eapply not_elem_of_nil. apply Hgroup. by exists a.
      * do 2 f_equal. destruct (foldr_max_spec y ys) as [Hin Hmax].
        apply Hgroup in Hin as (a' & Ha' & Hp' & Hm').
        specialize (Hle a' Ha' Hp').
        assert (m ≤ foldr Z.max y ys); [|lia].
        apply Hmax, Hgroup. by exists a.
Qed.

Lemma filter_key_unique {A} (f : A → Z) (k : Z) (l : list A) x :
  NoDup (f <$> l) → x ∈ l → f x = k → filter (λ y, f y = k) l = [x].
Proof.
  induction l as [|y l IH]; intros Hnd Hx Hk; [by apply elem_of_nil in Hx|].
  rewrite fmap_cons in Hnd. apply NoDup_cons in Hnd as [Hy Hnd].
  apply elem_of_cons in Hx as [->|Hx].
  - rewrite filter_cons_True by done. f_equal.
    rewrite (filter_iff_elem_of _ (λ _, False)).
    + clear. induction l as [|z l IH]; [done|]. by rewrite filter_cons_False by tauto.
    + intros z Hz. split; [|done]. intros Hzk. apply Hy.
      rewrite <- Hk in Hzk. rewrite <- Hzk. by apply list_elem_of_fmap_2.
  - rewrite filter_cons_False; [by apply IH|].
    intros Hyk. apply Hy. rewrite Hyk, <- Hk. by apply list_elem_of_fmap_2.
Qed.

Lemma latest_audit_subq_keys db : NoDup (fst <$> latest_audit_subq db).
Proof.
  unfold latest_audit_subq.
  generalize (NoDup_remove_dups (Audit.property_id <$> db.(audits))).
  generalize (remove_dups (Audit.property_id <$> db.(audits))).
  induction l as [|x l IH]; intros Hnd; [constructor|].
  apply NoDup_cons in Hnd as [Hx Hnd]. simpl.
  destruct (Audit.id <$> filter (λ a, Audit.property_id a = x) db.(audits))
    as [|y ys]; [by apply IH|].
  simpl. apply NoDup_cons. split; [|by apply IH].
  intros ((pid & m) & Hpid & Hin)%list_elem_of_fmap. simpl in Hpid. subst pid.
  apply list_elem_of_omap in Hin as (x' & Hx' & Hf).
  destruct (Audit.id <$> filter (λ a, Audit.property_id a = x') db.(audits));
    [done|].
  by injection Hf as -> _.
Qed.

(** With unique audit ids, the stated latest audit is the audit carrying
    the id the subquery computes. *)
Lemma latest_audit_of_subq db pid m a :
  NoDup (Audit.id <$> db.(audits)) →
  (pid, m) ∈ latest_audit_subq db → a ∈ db.(audits) → Audit.id a = m →
  Stated.latest_audit db pid = Some a ∧ Audit.property_id a = pid.
Proof.
  intros Hnd [(a0 & Ha0 & Hp0 & Hm0) Hle]%latest_audit_subq_elem Ha Hm.
  assert (Hone : filter (λ y, Audit.id y = m) db.(audits) = [a])
    by by apply filter_key_unique.
  assert (a0 = a) as ->.
  { assert (Hin : a0 ∈ filter (λ y, Audit.id y = m) db.(audits))
      by by apply list_elem_of_filter.
    rewrite Hone in Hin. by apply list_elem_of_singleton in Hin. }
  split; [|done]. unfold Stated.latest_audit.
  rewrite (filter_iff_elem_of _ (λ y, Audit.id y = m)); [by rewrite Hone|].
  intros y Hy. rewrite Forall_forall. split.
  - intros [Hyp Hymax]. specialize (Hymax a Ha Hp0). specialize (Hle y Hy Hyp). lia.
  - intros Hym.
    assert (y = a) as ->.
    { assert (Hin : y ∈ filter (λ y, Audit.id y = m) db.(audits))
        by by apply list_elem_of_filter.
      rewrite Hone in Hin. by apply list_elem_of_singleton in Hin. }
    split; [done|]. intros a' Ha' Hp'. rewrite Hm. by apply Hle.
Qed.

Lemma latest_audit_None db pid :
  (∀ a, a ∈ db.(audits) → Audit.property_id a ≠ pid) →
  Stated.latest_audit db pid = None.
Proof.
  intros Hnone. unfold Stated.latest_audit.
  rewrite (filter_iff_elem_of _ (λ _, False)).
  - generalize db.(audits). induction l as [|z l IH]; [done|].
    by rewrite filter_cons_False by tauto.
  - intros y Hy. split; [|done]. intros [Hp _]. by apply (Hnone y).
Qed.

Lemma latest_audit_subq_exists db a :
  a ∈ db.(audits) → ∃ m, (Audit.property_id a, m) ∈ latest_audit_subq db.
Proof.
  intros Ha. set (pid := Audit.property_id a).
  assert (Hgroup : ∀ z, z ∈ Audit.id <$> filter (λ a, Audit.property_id a = pid)
                                         db.(audits)
                        ↔ ∃ a, a ∈ db.(audits) ∧ Audit.property_id a = pid
                               ∧ Audit.id a = z).
  { intros z. rewrite list_elem_of_fmap. split.
    - intros (a' & -> & [? ?]%list_elem_of_filter). by exists a'.
    - intros (a' & ? & ? & <-). exists a'. split; [done|].
      by apply list_elem_of_filter. }
  destruct (Audit.id <$> filter (λ a, Audit.property_id a = pid) db.(audits))
    as [|y ys] eqn:Hg.
  { exfalso. eapply not_elem_of_nil. apply Hgroup. by exists a. }
  destruct (foldr_max_spec y ys) as [Hin Hmax].
  exists (foldr Z.max y ys). apply latest_audit_subq_elem. split.
  - by apply Hgroup.
  - intros a' Ha' Hp'. apply Hmax, Hgroup. by exists a'.
Qed.

Lemma outer_singleton_one {A B} (on : A → B → option bool) (l : A)
    (right : list B) (r : B) :
  Sql.where_ (on l) right = [r] → Join.outer on [l] right = [(l, Some r)].
Proof. unfold Join.outer. simpl. by intros ->. Qed.

Lemma outer_singleton_none {A B} (on : A → B → option bool) (l : A)
    (right : list B) :
  Sql.where_ (on l) right = [] → Join.outer on [l] right = [(l, None)].
Proof. unfold Join.outer. simpl. by intros ->. Qed.

Lemma outer_app {A B} (on : A → B → option bool) (l1 l2 : list A) (right : list B) :
  Join.outer on (l1 ++ l2) right = Join.outer on l1 right ++ Join.outer on l2 right.
Proof. unfold Join.outer. apply bind_app. Qed.

(** The two outer joins of [get_risk_assessment], one property at a time. *)
Lemma risk_joins_one_property now db p :
  NoDup (Audit.id <$> db.(audits)) →
  risk_row now <$>
    Join.outer (λ (l : Property.t * option (Z * Z)) (a : Audit.t),
                  Sql.eq (snd <$> l.2) a.(Audit.id))
      (Join.outer (λ (p : Property.t) (s : Z * Z), Sql.eq (Some p.(Property.id)) s.1)
         [p] (latest_audit_subq db))
      db.(audits)
  = [risk_row now (p, None, Stated.latest_audit db (Property.id p))].
Proof.
  intros Hnd.
  destruct (decide (Exists (λ a, Audit.property_id a = Property.id p) db.(audits)))
    as [Hsome|Hnone].
  - apply Exists_exists in Hsome as (a0 & Ha0 & Hp0).
    destruct (latest_audit_subq_exists db a0 Ha0) as [m Hm]. rewrite Hp0 in Hm.
    pose proof Hm as [(a & Ha & Hpa & Hida) _]%latest_audit_subq_elem.
    rewrite (outer_singleton_one _ p _ (Property.id p, m)).
    2:{ unfold Sql.where_.
        rewrite (list_filter_iff _ (λ s : Z * Z, s.1 = Property.id p))
          by (intros s; rewrite holds_eq; split; by intros ->).
        apply (filter_key_unique fst); [apply latest_audit_subq_keys|done..]. }
    rewrite (outer_singleton_one _ _ _ a).
    2:{ unfold Sql.where_.
        rewrite (list_filter_iff _ (λ a : Audit.t, Audit.id a = m)).
        - by apply filter_key_unique.
        - intros s.
          change (Sql.holds (Sql.eq (Some m) (Audit.id s)) ↔ Audit.id s = m).
          rewrite holds_eq. split; by intros ->. }
    destruct (latest_audit_of_subq db (Property.id p) m a Hnd Hm Ha Hida) as [-> _].
    done.
  - assert (Hnone' : ∀ a, a ∈ db.(audits) → Audit.property_id a ≠ Property.id p).
    { intros a Ha Hp. apply Hnone, Exists_exists. by exists a. }
    rewrite (outer_singleton_none _ p).
    2:{ apply filter_nothing. intros [pid m] Hin Hhold. apply holds_eq in Hhold.
        simpl in Hhold. subst pid.
        apply latest_audit_subq_elem in Hin as [(a & Ha & Hp & _) _].
        by apply (Hnone' a). }
    rewrite outer_singleton_none.
    2:{ apply filter_nothing. by intros a _ [=]. }
    simpl. by rewrite latest_audit_None.
Qed.

(** X19. When audit ids are unique, [get_risk_assessment] has exactly one
    row per property, carrying the score, zone and age of the property's
    latest audit (the one with the greatest id) and the risk level computed
    from them; a property without audits has null score, zone and age and
    the level LOW. *)
Theorem get_risk_assessment_one_row_per_property now db :
  NoDup (Audit.id <$> db.(audits)) →
  get_risk_assessment now db
  ≡ₚ (λ p,
        let latest := Stated.latest_audit db (Property.id p) in
        let zone := latest ≫= Audit.compliance_zone in
        let days := days_since now (Audit.created_at <$> latest) in
        RiskRow.mk (Property.name p) (Property.location p)
          (latest ≫= Audit.overall_score) zone days (risk_level zone days))
     <$> db.(properties)
  ∧ length (get_risk_assessment now db) = length db.(properties)
  ∧ (∀ p, p ∈ db.(properties) →
          (∀ a, a ∈ db.(audits) → Audit.property_id a ≠ Property.id p) →
          RiskRow.mk (Property.name p) (Property.location p) None None None "LOW"
          ∈ get_risk_assessment now db).
Proof.
  intros Hnd.
  assert (Hperm : get_risk_assessment now db
            ≡ₚ (λ p, risk_row now (p, None, Stated.latest_audit db (Property.id p)))
               <$> db.(properties)).
  { unfold get_risk_assessment. rewrite order_by_perm.
    generalize db.(properties) as props.
    induction props as [|p props IH]; [done|].
    change (p :: props) with ([p] ++ props).
    rewrite !outer_app, !fmap_app, (risk_joins_one_property now db p Hnd).
    simpl. by rewrite IH. }
  split; [exact Hperm|]. split.
  - by rewrite Hperm, length_fmap.
  - intros p Hp Hnone. rewrite Hperm. apply list_elem_of_fmap. exists p.
    split; [|done]. by rewrite latest_audit_None.
Qed.

Lemma inner_elem_of {A B} (on : A → B → option bool) (left : list A)
    (right : list B) l r :
  (l, r) ∈ Join.inner on left right ↔ l ∈ left ∧ r ∈ right ∧ Sql.holds (on l r).
Proof.
  unfold Join.inner, Sql.where_. rewrite list_elem_of_bind. split.
  - intros (l' & Hpair & Hl').
    apply list_elem_of_fmap in Hpair as (r' & [= -> ->] & [? ?]%list_elem_of_filter).
    done.
  - intros (Hl & Hr & Hon). exists l. split; [|done].
    apply list_elem_of_fmap. exists r. split; [done|].
    by apply list_elem_of_filter.
Qed.

Lemma latest_audit_Some db pid a :
  Stated.latest_audit db pid = Some a →
  a ∈ db.(audits) ∧ Audit.property_id a = pid
  ∧ (pid, Audit.id a) ∈ latest_audit_subq db.
Proof.
  unfold Stated.latest_audit. intros Hhead%head_Some_elem_of.
  apply list_elem_of_filter in Hhead as [[Hp Hmax] Ha].
  rewrite Forall_forall in Hmax. split; [done|]. split; [done|].
  apply latest_audit_subq_elem. split; [by exists a|]. intros a' Ha' Hp'. by apply Hmax.
Qed.

Lemma holds_needs_attention joined :
  Sql.holds (needs_attention joined)
  ↔ Audit.compliance_zone joined.2 = Some "red"
    ∨ ∃ score, Audit.overall_score joined.2 = Some score ∧ score < 60.
Proof.
  unfold needs_attention, Sql.holds, Sql.eq, Sql.lt.
  destruct (Audit.compliance_zone joined.2) as [z|],
    (Audit.overall_score joined.2) as [v|]; simpl; repeat case_bool_decide; subst;
    simpl; split; try done.
  all: try (intros _; by left).
  all: try (intros _; right; by exists v).
  all: intros [[=]|(? & [=] & ?)]; subst; done.
Qed.

(** X20. When audit ids are unique, [get_properties_requiring_attention]
    lists exactly the properties whose latest audit (the one with the
    greatest id) is in the red zone or scored below 60, with that audit's
    score, zone, date and age in days; a property without audits, or whose
    latest audit is neither, is not listed, whatever its older audits. *)
Theorem get_properties_requiring_attention_latest now db :
  NoDup (Audit.id <$> db.(audits)) →
  ∀ row,
    row ∈ get_properties_requiring_attention now db
    ↔ ∃ p a,
        p ∈ db.(properties)
        ∧ Stated.latest_audit db (Property.id p) = Some a
        ∧ (Audit.compliance_zone a = Some "red"
           ∨ ∃ score, Audit.overall_score a = Some score ∧ score < 60)
        ∧ row = AttentionRow.mk (Property.name p) (Property.location p)
                  (Property.status p) (Audit.overall_score a)
                  (Audit.compliance_zone a) (Audit.created_at a)
                  (Datetime.date now - Datetime.date (Audit.created_at a)).
Proof.
  intros Hnd row. unfold get_properties_requiring_attention.
  rewrite order_by_elem_of, list_elem_of_fmap. unfold Sql.where_, latest_audit_join.
  split.
  - intros ([[p [pid m]] a] & -> & [Hatt Hjoin]%list_elem_of_filter).
    apply inner_elem_of in Hjoin as ([Hp [Hs Hon1]]%inner_elem_of & Ha & Hon2).
    apply holds_eq in Hon1, Hon2. simpl in *. subst pid.
    destruct (latest_audit_of_subq db (Property.id p) m a Hnd Hs Ha Hon2)
      as [Hlatest _].
    exists p, a. split; [done|]. split; [done|]. split; [|done].
    by apply holds_needs_attention in Hatt.
  - intros (p & a & Hp & Hlatest & Hatt & ->).
    apply latest_audit_Some in Hlatest as (Ha & Hpa & Hs).
    exists (p, (Property.id p, Audit.id a), a). split; [done|].
    apply list_elem_of_filter. split; [by apply holds_needs_attention|].
    apply inner_elem_of. split; [|split; [done|by apply holds_eq]].
    apply inner_elem_of. split; [done|]. split; [done|by apply holds_eq].
Qed.
Lemma get_risk_assessment_perm now db :
  NoDup (Audit.id <$> db.(audits)) →
  get_risk_assessment now db
  ≡ₚ (λ p, risk_row now (p, None, Stated.latest_audit db (Property.id p)))
     <$> db.(properties).
Proof.
  intros Hnd. unfold get_risk_assessment. rewrite order_by_perm.
  generalize db.(properties) as props.
  induction props as [|p props IH]; [done|].
  change (p :: props) with ([p] ++ props).
  rewrite !outer_app, !fmap_app, (risk_joins_one_property now db p Hnd).
  simpl. by rewrite IH.
Qed.

(** C2. The rows of [get_risk_assessment] and their labels. When audit ids
    are unique, the rows are, up to their order, one per property: the
    row's [compliance_zone] is that of the property's latest audit (the one
    with the greatest id), its [days_since_audit] is the number of calendar
    days from the day that audit was created to the day of the call, both
    null for a property without audits, and its [risk_level] is the label
    the ordered rule table gives for that zone and that number of days: red
    is HIGH; amber with more than 90 days is HIGH; amber otherwise is
    MEDIUM; more than 180 days in any other zone is MEDIUM; everything else
    is LOW. On every database, each row's label is the rule table's value at
    the row's own zone and days; the [case] expression of the query equals
    the rule table at every zone and day count, null ones included. *)
Theorem get_risk_assessment_rule_table :
  (∀ now db,
     NoDup (Audit.id <$> db.(audits)) →
     get_risk_assessment now db
     ≡ₚ (λ p,
           let latest := Stated.latest_audit db (Property.id p) in
           let zone := latest ≫= Audit.compliance_zone in
           let days :=
             (λ a, now `div` 86400000000 - Audit.created_at a `div` 86400000000)
               <$> latest in
           RiskRow.mk (Property.name p) (Property.location p)
             (latest ≫= Audit.overall_score) zone days
             (Stated.risk_label zone days))
        <$> db.(properties))
  ∧ (∀ now db,
       Forall (λ row,
                 RiskRow.risk_level row
                 = Stated.risk_label (RiskRow.compliance_zone row)
                     (RiskRow.days_since_audit row))
         (get_risk_assessment now db))
  ∧ (∀ zone days, risk_level zone days = Stated.risk_label zone days)
  ∧ (∀ zone days,
       let over n := ∃ d, days = Some d ∧ n < d in
       (zone = Some "red" → risk_level zone days = "HIGH")
       ∧ (zone = Some "amber" → over 90 → risk_level zone days = "HIGH")
       ∧ (zone = Some "amber" → ¬ over 90 → risk_level zone days = "MEDIUM")
       ∧ (zone ≠ Some "red" → zone ≠ Some "amber" → over 180 →
            risk_level zone days = "MEDIUM")
       ∧ (zone ≠ Some "red" → zone ≠ Some "amber" → ¬ over 180 →
            risk_level zone days = "LOW"))
  ∧ (∀ days, risk_level (Some "red") days = "HIGH")
  ∧ risk_level (Some "amber") (Some 100) = "HIGH"
  ∧ risk_level (Some "amber") (Some 10) = "MEDIUM"
  ∧ risk_level (Some "green") (Some 200) = "MEDIUM"
  ∧ risk_level (Some "green") (Some 10) = "LOW".
Proof.
  split; [|split; [|split; [|split; [|repeat split; by try intros []]]]].
  - intros now db Hnd. rewrite (get_risk_assessment_perm now db Hnd).
    apply reflexive_eq, list_fmap_ext. intros _ p _.
    unfold risk_row, days_since, Datetime.date, Datetime.microseconds_per_day.
    rewrite risk_level_label.
    by destruct (Stated.latest_audit db (Property.id p)).
  - intros now db.
    eapply Forall_impl; [apply get_risk_assessment_level|].
    intros row ->. apply risk_level_label.
  - apply risk_level_label.
  - apply risk_level_rules.
Qed.
End latest.

(** ** Partial update of a user *)

Section users.
Import DatabaseQueries.

Lemma foldl_setattr_lookup (kwargs : list (string * pyval)) (user : User) k :
  NoDup kwargs.*1 →
  (∀ v, (k, v) ∈ kwargs →
        foldl (λ (u : User) kv, <[kv.1 := kv.2]> u) user kwargs !! k = Some v)
  ∧ (k ∉ kwargs.*1 →
       foldl (λ (u : User) kv, <[kv.1 := kv.2]> u) user kwargs !! k = user !! k).
Proof.
  revert user. induction kwargs as [|[k' v'] kwargs IH]; intros user Hnd.
  - split; [by intros v ?%elem_of_nil|done].
  - rewrite fmap_cons in Hnd. apply NoDup_cons in Hnd as [Hk' Hnd]. simpl in *.
    destruct (IH (<[k' := v']> user) Hnd) as [IHin IHout]. split.
    + intros v [[= -> ->]|Hin]%elem_of_cons; [|by apply IHin].
      rewrite IHout by done. apply lookup_insert_eq.
    + intros Hk. apply not_elem_of_cons in Hk as [Hne Hk].
      rewrite IHout by done. by apply lookup_insert_ne.
Qed.

Lemma first_where_flush {A K} `{EqDecision K} (pk : A → K) (k : K) (obj : A)
    (cond : A → option bool) (rows : list A) :
  (∀ r, Sql.holds (cond r) ↔ pk r = k) → pk obj = k →
  Sql.first (Sql.where_ cond (Sql.flush pk k obj rows))
  = (λ _, obj) <$> Sql.first (Sql.where_ cond rows).
Proof.
  intros Hcond Hobj. unfold Sql.first, Sql.where_, Sql.flush.
  induction rows as [|r rows IH]; [done|].
  rewrite fmap_cons, !filter_cons.
  destruct (decide (pk r = k)) as [Hr|Hr].
  - rewrite !decide_True by by apply Hcond. done.
  - rewrite !decide_False by by rewrite Hcond. done.
Qed.

(** X21. For an existing user, [update_user] with keyword arguments that do
    not name [id] returns the user with every keyword set to its value and
    every other attribute as it was; the row then found under the same id
    agrees with the returned user on all mapped columns. *)
Theorem update_user_sets_only_kwargs user_id kwargs db user :
  Sql.first (Sql.where_ (λ u : User, Sql.eq (u !! "id") (PyInt user_id)) db.(users))
    = Some user →
  NoDup kwargs.*1 → "id" ∉ kwargs.*1 →
  ∃ (user' row : User) db',
    update_user user_id kwargs db = (Some user', db')
    ∧ (∀ k v, (k, v) ∈ kwargs → user' !! k = Some v)
    ∧ (∀ k, k ∉ kwargs.*1 → user' !! k = user !! k)
    ∧ Sql.first
        (Sql.where_ (λ u : User, Sql.eq (u !! "id") (PyInt user_id)) db'.(users))
      = Some row
    ∧ (∀ k, k ∈ user_columns → row !! k = user' !! k)
    ∧ db'.(properties) = db.(properties)
    ∧ db'.(audits) = db.(audits)
    ∧ db'.(audit_items) = db.(audit_items).
Proof.
  intros Hfind Hnd Hid. unfold update_user. rewrite Hfind.
  set (user' := foldl (λ (u : User) kv, <[kv.1 := kv.2]> u) user kwargs).
  set (row := filter (λ kv : string * pyval, kv.1 ∈ user_columns) user').
  assert (Hrow : ∀ k, k ∈ user_columns → row !! k = user' !! k).
  { intros k Hk. unfold row. destruct (user' !! k) as [v|] eqn:Hv.
    - apply map_lookup_filter_Some. by split.
    - apply map_lookup_filter_None. left. done. }
  assert (Huser_id : user !! "id" = Some (PyInt user_id)).
  { apply head_Some_elem_of in Hfind. unfold Sql.where_ in Hfind.
    apply list_elem_of_filter in Hfind as [Hhold _].
    apply (holds_eq_nullable (user !! "id") (PyInt user_id)). exact Hhold. }
  exists user', row, (with_users
    (Sql.flush (λ u : User, u !! "id") (Some (PyInt user_id)) row db.(users)) db).
  split; [done|].
  split; [intros k v; by apply foldl_setattr_lookup|].
  split; [intros k; by apply foldl_setattr_lookup|].
  split; [|done]. simpl.
  rewrite (first_where_flush (λ u : User, u !! "id") (Some (PyInt user_id)));
    [by rewrite Hfind| |].
  - intros r. apply holds_eq_nullable.
  - rewrite Hrow by (unfold user_columns; set_solver).
    unfold user'. by rewrite (proj2 (foldl_setattr_lookup kwargs user "id" Hnd)).
Qed.
End users.

(** ** Further instances on the sample data *)

Section more_witnesses.
Import DatabaseQueries.

Lemma sample_audit_ids_unique : NoDup (Audit.id <$> Sample.db.(audits)).
Proof. apply (bool_decide_unpack _). by vm_compute. Defined.

Lemma generate_report_found_witness :
  Sql.by_pk Audit.id 1 Sample.db.(audits) = Some Sample.audit1
  ∧ ∃ audit_data,
      Ai.AuditData.property_name audit_data = "Grand"
      ∧ Ai.AuditData.audit_type audit_data = "Standard Audit"
      ∧ length (Ai.AuditData.audit_items audit_data) = 1%nat.
Proof.
  split; [reflexivity|].
  destruct (generate_report_found (report := unit)
              (λ status_code detail, detail) (λ _, "1970-01-01T00:00:00")
              (λ _, Exn.Return ()) (λ _, Exn.Raise (Exn.OtherException "invalid"))
              (Schemas.ReportGenerationRequest.mk 1) Sample.db Sample.audit1 eq_refl)
    as (audit_data & _ & _ & _ & Hproperty & Htype & _ & _ & _ & Hitems).
  exists audit_data. split; [|split; [exact Htype|]].
  - exact (proj1 (Hproperty Sample.hotel eq_refl)).
  - rewrite Hitems. reflexivity.
Defined.

Lemma update_property_audit_schedules_clears_overdue_witness :
  Sample.now ≤ Sample.now + 1
  ∧ (update_property_audit_schedules Sample.now (Sample.now + 1) Sample.db).1 = 1.
Proof.
  assert (Hclock : Sample.now ≤ Sample.now + 1) by (by vm_compute).
  split; [exact Hclock|].
  rewrite (proj1 (update_property_audit_schedules_clears_overdue
                    Sample.now (Sample.now + 1) Sample.db Hclock)).
  reflexivity.
Defined.

Lemma update_property_status_clears_due_witness :
  Sql.by_pk Property.id 6 Sample.db.(properties) = Some Sample.inn
  ∧ ∀ p, p ∈ get_properties_needing_audit Sample.now
               (update_property_status Sample.now 6 85 Sample.db).2 →
         Property.id p ≠ 6.
Proof.
  split; [reflexivity|]. intros p.
  apply (proj1 (update_property_status_clears_due Sample.now 6 85 Sample.db
                  Sample.inn eq_refl) Sample.now p).
  by vm_compute.
Defined.

Lemma sample_reviewer_exists :
  ∃ u : User, u ∈ Sample.db.(users) ∧ u !! "id" = Some (PyInt 1).
Proof. exists Sample.ann. split; [left|reflexivity]. Defined.



Lemma submit_then_review_witness :
  Sql.by_pk Audit.id 2 Sample.db.(audits) = Some Sample.audit2
  ∧ (∃ u : User, u ∈ Sample.db.(users) ∧ u !! "id" = Some (PyInt 1))
  ∧ ∃ audit2 db2,
      assign_reviewer 2000 2 1
        (update_audit_scores 1000 2 88 None None None None None None Sample.db).2
      = (Exn.Return (Some audit2), db2)
      ∧ Audit.status audit2 = "reviewed"
      ∧ Audit.overall_score audit2 = Some 88
      ∧ Audit.submitted_at audit2 = Some 1000.
Proof.
  split; [reflexivity|]. split; [exact sample_reviewer_exists|].
  destruct (submit_then_review 1000 2000 2 88 1 Sample.db Sample.audit2 eq_refl
              sample_reviewer_exists)
    as (audit2 & db2 & Hrun & _ & Hstatus & Hscore & Hat & _).
  exists audit2, db2. split; [exact Hrun|]. split; [exact Hstatus|].
  split; [exact Hscore|exact Hat].
Defined.

Lemma update_audit_item_with_ai_truthiness_witness :
  Sql.by_pk AuditItem.id 1 Sample.db.(audit_items) = Some Sample.late_item
  ∧ ∃ item' db',
      update_audit_item_with_ai 1 ∅ 75 (Some 0) (Some "") Sample.db = (Some item', db')
      ∧ AuditItem.ai_suggested_score item' = Some 75
      ∧ AuditItem.score item' = Some 0
      ∧ AuditItem.comments item' = None.
Proof.
  split; [reflexivity|].
  destruct (update_audit_item_with_ai_truthiness 1 ∅ 75 (Some 0) (Some "")
              Sample.db Sample.late_item eq_refl)
    as (item' & db' & Hrun & _ & _ & Hsuggested & Hscore & _ & _ & Hcomments & _).
  exists item', db'. split; [exact Hrun|]. split; [exact Hsuggested|].
  split; [exact (Hscore 0 eq_refl)|exact (Hcomments (or_intror eq_refl))].
Defined.

Lemma update_audit_with_ai_report_is_listed_witness :
  Sql.by_pk Audit.id 1 Sample.db.(audits) = Some Sample.audit1
  ∧ ∃ audit' db',
      update_audit_with_ai_report 1 ∅ ∅ Sample.db = (Some audit', db')
      ∧ audit' ∈ get_audits_with_ai_analysis db'.
Proof.
  split; [reflexivity|].
  destruct (update_audit_with_ai_report_is_listed 1 ∅ ∅ Sample.db Sample.audit1 eq_refl)
    as (audit' & db' & Hrun & _ & _ & _ & _ & _ & _ & Hlisted & _).
  exists audit', db'. split; [exact Hrun|exact Hlisted].
Defined.

Lemma get_risk_assessment_one_row_per_property_witness :
  NoDup (Audit.id <$> Sample.db.(audits))
  ∧ length (get_risk_assessment Sample.now Sample.db) = 2%nat.
Proof.
  split; [exact sample_audit_ids_unique|].
  exact (proj1 (proj2 (get_risk_assessment_one_row_per_property Sample.now Sample.db
                         sample_audit_ids_unique))).
Defined.

Lemma get_properties_requiring_attention_latest_witness :
  NoDup (Audit.id <$> Sample.attention.(audits))
  ∧ AttentionRow.mk "Inn" "Goa" (Some "amber") (Some 40) (Some "red") 0 2000
    ∈ get_properties_requiring_attention Sample.now Sample.attention.
Proof.
  assert (Hnd : NoDup (Audit.id <$> Sample.attention.(audits))).
  { apply (bool_decide_unpack _). by vm_compute. }
  split; [exact Hnd|].
  apply (get_properties_requiring_attention_latest Sample.now Sample.attention Hnd).
  exists Sample.inn, Sample.audit3. split; [right; left|].
  split; [vm_compute; reflexivity|]. split; [left; reflexivity|].
  vm_compute. reflexivity.
Defined.

Lemma update_user_sets_only_kwargs_witness :
  Sql.first (Sql.where_ (λ u : User, Sql.eq (u !! "id") (PyInt 1)) Sample.db.(users))
    = Some Sample.ann
  ∧ ∃ (user' : User) db',
      update_user 1 [("name", PyStr "Ann")] Sample.db = (Some user', db')
      ∧ user' !! "name" = Some (PyStr "Ann")
      ∧ user' !! "username" = Some (PyStr "ann").
Proof.
  assert (Hfind : Sql.first
            (Sql.where_ (λ u : User, Sql.eq (u !! "id") (PyInt 1)) Sample.db.(users))
            = Some Sample.ann) by (by vm_compute).
  split; [exact Hfind|].
  assert (Hnd : NoDup [("name", PyStr "Ann")].*1).
  { apply (bool_decide_unpack _). by vm_compute. }
  assert (Hid : "id" ∉ [("name", PyStr "Ann")].*1).
  { apply (bool_decide_unpack _). by vm_compute. }
  destruct (update_user_sets_only_kwargs 1 [("name", PyStr "Ann")] Sample.db
              Sample.ann Hfind Hnd Hid)
    as (user' & row & db' & Hrun & Hset & Hkeep & _).
  exists user', db'. split; [exact Hrun|]. split.
  - apply Hset. left.
  - rewrite Hkeep; [by vm_compute|]. apply (bool_decide_unpack _). by vm_compute.
Defined.
Lemma sample_attention_ids_unique : NoDup (Audit.id <$> Sample.attention.(audits)).
Proof. apply (bool_decide_unpack _). by vm_compute. Defined.

Lemma get_risk_assessment_rule_table_witness :
  NoDup (Audit.id <$> Sample.attention.(audits))
  ∧ get_risk_assessment Sample.now Sample.attention
    ≡ₚ [ RiskRow.mk "Grand" "Pune" (Some 70) (Some "amber") (Some 2000) "HIGH";
         RiskRow.mk "Inn" "Goa" (Some 40) (Some "red") (Some 2000) "HIGH" ].
Proof.
  split; [exact sample_attention_ids_unique|].
  etrans; [exact (proj1 get_risk_assessment_rule_table Sample.now Sample.attention
                    sample_attention_ids_unique)|].
  vm_compute. reflexivity.
Defined.

End more_witnesses.
